(** * Ground-station control loop: heartbeat monitor, telemetry fusion,
      command decision and the command worker.

    Shallow embedding of
      modules/heartbeat/heartbeat_receiver.py
      modules/telemetry/telemetry.py
      modules/command/command.py
      modules/command/command_worker.py

    Python [float] is IEEE 754 binary64 and is modelled by Rocq's primitive
    floats, so every arithmetic step and comparison rounds exactly as in the
    program.  Python [int] is unbounded and is modelled by [Z].  Log lines
    and status strings that interpolate numbers are kept as structured
    values carrying the number instead of its decimal rendering. *)

From Stdlib Require Import ZArith List String Bool Lia Floats.
Import ListNotations.

Local Open Scope Z_scope.

(** ** Exceptions and the try/except pattern *)

(** A computation that either returns a value or raises. *)
Inductive outcome (A : Type) : Type :=
| Returned (a : A)
| Raised (e : string).

Arguments Returned {A} a.
Arguments Raised {A} e.

(** ** The worker loops *)

(** The number of iterations a worker loop makes, given the successive
    answers of [controller.is_exit_requested()]: the answers [False] before
    the first [True]. *)
Fixpoint iterations (exits : list bool) : nat :=
  match exits with
  | false :: exits' => S (iterations exits')
  | _ => O
  end.

(** * HeartbeatReceiver (modules/heartbeat/heartbeat_receiver.py) *)

Module HeartbeatReceiver.

(** Heartbeat period in seconds. *)
Definition HEARTBEAT_PERIOD : float := 1%float.

(** Number of missed heartbeats before considered disconnected. *)
Definition DISCONNECT_THRESHOLD : Z := 5.

(** What [connection.recv_match(type="HEARTBEAT", blocking=True, timeout=...)]
    can do: return [None], return a message (of which only [get_type()] is
    consulted), or raise. *)
Inductive recv_result : Type :=
| RecvNone
| RecvMsg (msg_type : string)
| RecvRaise (e : string).

Inductive log_entry : Type :=
| InfoReceivedHeartbeat
| WarningMissed (missed threshold : Z)
| WarningConnectionLost
| ErrorReceiving (e : string).

(** The two mutable attributes of the object. *)
Record state : Type := mkState {
  missed_heartbeats : Z;
  is_connected : bool
}.

(** [__init__]. *)
Definition init : state :=
  {| missed_heartbeats := 0; is_connected := false |}.

(** The body of the [try] block: the receive, then the if/else on the
    message.  A raise of [recv_match] leaves the attributes untouched. *)
Definition try_body (s : state) (r : recv_result) : outcome (state * list log_entry) :=
  match r with
  | RecvRaise e => Raised e
  | RecvMsg ty =>
      if String.eqb ty "HEARTBEAT" then
        Returned ({| missed_heartbeats := 0; is_connected := true |},
                  [InfoReceivedHeartbeat])
      else
        let m := missed_heartbeats s + 1 in
        if DISCONNECT_THRESHOLD <=? m then
          Returned ({| missed_heartbeats := m; is_connected := false |},
                    [WarningMissed m DISCONNECT_THRESHOLD; WarningConnectionLost])
        else
          Returned ({| missed_heartbeats := m; is_connected := is_connected s |},
                    [WarningMissed m DISCONNECT_THRESHOLD])
  | RecvNone =>
      let m := missed_heartbeats s + 1 in
      if DISCONNECT_THRESHOLD <=? m then
        Returned ({| missed_heartbeats := m; is_connected := false |},
                  [WarningMissed m DISCONNECT_THRESHOLD; WarningConnectionLost])
      else
        Returned ({| missed_heartbeats := m; is_connected := is_connected s |},
                  [WarningMissed m DISCONNECT_THRESHOLD])
  end.

(** The [except Exception as e] handler. *)
Definition except_handler (s : state) (e : string) : state * list log_entry :=
  let m := missed_heartbeats s + 1 in
  if DISCONNECT_THRESHOLD <=? m then
    ({| missed_heartbeats := m; is_connected := false |}, [ErrorReceiving e])
  else
    ({| missed_heartbeats := m; is_connected := is_connected s |}, [ErrorReceiving e]).

Definition status_string (s : state) : string :=
  if is_connected s then "connected"%string else "disconnected"%string.

(** [HeartbeatReceiver.run]: new attributes, log lines written, and what the
    call does: return [(True, status)] or raise. *)
Definition run (s : state) (r : recv_result)
  : state * list log_entry * outcome (bool * string) :=
  let '(s', logs) :=
    match try_body s r with
    | Returned sl => sl
    | Raised e => except_handler s e
    end in
  (s', logs, Returned (true, status_string s')).

Definition run_state (s : state) (r : recv_result) : state := fst (fst (run s r)).
Definition run_result (s : state) (r : recv_result) : outcome (bool * string) :=
  snd (run s r).

(** A call receives a heartbeat when the message is there and is a HEARTBEAT. *)
Definition is_heartbeat (r : recv_result) : bool :=
  match r with
  | RecvMsg ty => String.eqb ty "HEARTBEAT"
  | _ => false
  end.

(** The receiver after a sequence of [run] calls, from a given state. *)
Definition run_from (s : state) (rs : list recv_result) : state :=
  fold_left run_state rs s.

(** The receiver after a sequence of [run] calls since construction. *)
Definition run_all (rs : list recv_result) : state := run_from init rs.

Definition ever_received (rs : list recv_result) : bool := existsb is_heartbeat rs.

(** A sequence of calls none of which receives a heartbeat. *)
Definition all_missed (rs : list recv_result) : bool :=
  forallb (fun r => negb (is_heartbeat r)) rs.

(** The states the object can be in. *)
Definition reachable (s : state) : Prop := exists rs, s = run_all rs.

End HeartbeatReceiver.

(** * Telemetry (modules/telemetry/telemetry.py) *)

Module Telemetry.

(** [TelemetryData]: every attribute is optional. *)
Record TelemetryData : Type := mkTelemetryData {
  time_since_boot : option Z;
  x : option float;
  y : option float;
  z : option float;
  x_velocity : option float;
  y_velocity : option float;
  z_velocity : option float;
  roll : option float;
  pitch : option float;
  yaw : option float;
  roll_speed : option float;
  pitch_speed : option float;
  yaw_speed : option float
}.

(** Timeout in seconds for receiving both messages. *)
Definition TELEMETRY_TIMEOUT : float := 1%float.

(** The fields of an ATTITUDE (30) message that [run] reads. *)
Record attitude_msg : Type := mkAttitude {
  att_time_boot_ms : Z;
  att_roll : float;
  att_pitch : float;
  att_yaw : float;
  att_rollspeed : float;
  att_pitchspeed : float;
  att_yawspeed : float
}.

(** The fields of a LOCAL_POSITION_NED (32) message that [run] reads. *)
Record position_msg : Type := mkPosition {
  pos_time_boot_ms : Z;
  pos_x : float;
  pos_y : float;
  pos_z : float;
  pos_vx : float;
  pos_vy : float;
  pos_vz : float
}.

(** A message as [run] sees it through [get_type()]. *)
Inductive message : Type :=
| ATTITUDE (a : attitude_msg)
| LOCAL_POSITION_NED (p : position_msg)
| OTHER (msg_type : string).

(** The outside of [run]: the successive readings of [time.time()] and the
    successive results of [recv_match] ([None] on timeout).  Every call pops
    the head of its list. *)
Record world : Type := mkWorld {
  clock : list float;
  link : list (option message)
}.

Inductive log_entry : Type :=
| DebugAttitude (yaw : float)
| DebugPosition (x y z : float)
| InfoTelemetry (t : TelemetryData)
| ErrorTimeout.

(** The four local variables of [run] that hold what was received. *)
Record slots : Type := mkSlots {
  attitude_data : option attitude_msg;
  position_data : option position_msg;
  attitude_time : Z;
  position_time : Z
}.

(** The values the locals are given at the top of [run]. *)
Definition empty_slots : slots :=
  {| attitude_data := None; position_data := None;
     attitude_time := 0; position_time := 0 |}.

(** The [if msg is not None: ...] block. *)
Definition store (sl : slots) (msg : option message) : slots * list log_entry :=
  match msg with
  | Some (ATTITUDE a) =>
      ({| attitude_data := Some a; position_data := position_data sl;
          attitude_time := att_time_boot_ms a; position_time := position_time sl |},
       [DebugAttitude (att_yaw a)])
  | Some (LOCAL_POSITION_NED p) =>
      ({| attitude_data := attitude_data sl; position_data := Some p;
          attitude_time := attitude_time sl; position_time := pos_time_boot_ms p |},
       [DebugPosition (pos_x p) (pos_y p) (pos_z p)])
  | Some (OTHER _) => (sl, [])
  | None => (sl, [])
  end.

(** The [TelemetryData(...)] built once both messages are there. *)
Definition combine (most_recent_time : Z) (a : attitude_msg) (p : position_msg)
  : TelemetryData :=
  {| time_since_boot := Some most_recent_time;
     x := Some (pos_x p); y := Some (pos_y p); z := Some (pos_z p);
     x_velocity := Some (pos_vx p); y_velocity := Some (pos_vy p);
     z_velocity := Some (pos_vz p);
     roll := Some (att_roll a); pitch := Some (att_pitch a); yaw := Some (att_yaw a);
     roll_speed := Some (att_rollspeed a); pitch_speed := Some (att_pitchspeed a);
     yaw_speed := Some (att_yawspeed a) |}.

(** What a call hands back: the returned tuple, the log lines, the world
    that is left. *)
Definition run_output : Type := (bool * option TelemetryData) * list log_entry * world.

(** The [while remaining_timeout > 0] loop.  Each iteration pops one result
    of [recv_match]; [None] is returned when the script of the world is
    used up before the loop ends. *)
Fixpoint loop (start_time remaining_timeout : float) (sl : slots)
  (logs : list log_entry) (clk : list float) (lnk : list (option message))
  {struct lnk} : option run_output :=
  if (0 <? remaining_timeout)%float then
    match lnk with
    | [] => None
    | msg :: lnk' =>
        let '(sl', l) := store sl msg in
        match attitude_data sl', position_data sl' with
        | Some a, Some p =>
            let most_recent_time := Z.max (attitude_time sl') (position_time sl') in
            let telemetry_data := combine most_recent_time a p in
            Some ((true, Some telemetry_data),
                  logs ++ l ++ [InfoTelemetry telemetry_data],
                  {| clock := clk; link := lnk' |})
        | _, _ =>
            match clk with
            | [] => None
            | now :: clk' =>
                let elapsed := (now - start_time)%float in
                loop start_time (TELEMETRY_TIMEOUT - elapsed)%float sl'
                     (logs ++ l) clk' lnk'
            end
        end
    end
  else
    Some ((false, None), logs ++ [ErrorTimeout], {| clock := clk; link := lnk |}).

(** [Telemetry.run].  The object has no attribute besides the connection
    and the logger, so the world is the only state threaded through. *)
Definition run (w : world) : option run_output :=
  match clock w with
  | [] => None
  | start_time :: clk => loop start_time TELEMETRY_TIMEOUT empty_slots [] clk (link w)
  end.

(** Two calls of [run] in a row on the same connection. *)
Definition run_twice (w : world) : option (run_output * run_output) :=
  match run w with
  | None => None
  | Some o1 =>
      match run (snd o1) with
      | None => None
      | Some o2 => Some (o1, o2)
      end
  end.

Definition is_attitude (m : option message) : bool :=
  match m with Some (ATTITUDE _) => true | _ => false end.

Definition is_position (m : option message) : bool :=
  match m with Some (LOCAL_POSITION_NED _) => true | _ => false end.

(** The slots hold messages that were received, each with its own time. *)
Definition slots_ok (sl : slots) (seen : list (option message)) : Prop :=
  (forall a, attitude_data sl = Some a ->
     attitude_time sl = att_time_boot_ms a /\ In (Some (ATTITUDE a)) seen)
  /\ (forall p, position_data sl = Some p ->
        position_time sl = pos_time_boot_ms p /\ In (Some (LOCAL_POSITION_NED p)) seen).

(** The returned tuple is the snapshot fused from [a] and [p]. *)
Definition fuses (r : bool * option TelemetryData) (a : attitude_msg) (p : position_msg)
  : Prop :=
  r = (true, Some (combine (Z.max (att_time_boot_ms a) (pos_time_boot_ms p)) a p)).

(** The time budget is used up at the clock reading [now]: the loop test
    [remaining_timeout > 0] fails for the remaining time computed from it. *)
Definition expired (start_time now : float) : bool :=
  negb (0 <? TELEMETRY_TIMEOUT - (now - start_time))%float.

(** One kind of message is missing from the slots and from the results [l]
    of [recv_match]. *)
Definition lacks_one_kind (sl : slots) (l : list (option message)) : Prop :=
  (attitude_data sl = None /\ existsb is_attitude l = false)
  \/ (position_data sl = None /\ existsb is_position l = false).

(** Accessors of what a call hands back. *)
Definition result (o : run_output) : bool * option TelemetryData := fst (fst o).
Definition rest (o : run_output) : world := snd o.

(** Sample messages and worlds. *)
Definition example_attitude : attitude_msg :=
  {| att_time_boot_ms := 1500; att_roll := 0; att_pitch := 0; att_yaw := 0.25;
     att_rollspeed := 0; att_pitchspeed := 0; att_yawspeed := 0 |}.

Definition example_position : position_msg :=
  {| pos_time_boot_ms := 1480; pos_x := 1; pos_y := 2; pos_z := 8;
     pos_vx := 0; pos_vy := 0; pos_vz := 0 |}.

(** A position message, a timeout of [recv_match], then an attitude message,
    all within the time budget. *)
Definition example_world : world :=
  {| clock := [100; 100.25; 100.5; 100.75]%float;
     link := [Some (LOCAL_POSITION_NED example_position); None;
              Some (ATTITUDE example_attitude)] |}.

Definition example_output : run_output :=
  let t := combine 1500 example_attitude example_position in
  ((true, Some t),
   [DebugPosition 1 2 8; DebugAttitude 0.25; InfoTelemetry t],
   {| clock := [100.75]%float; link := [] |}).

(** An attitude message alone in the budget of a first call, then a position
    message alone in the budget of a second call. *)
Definition example_partial_world : world :=
  {| clock := [100; 100.5; 101.5; 102; 102.5; 103.5]%float;
     link := [Some (ATTITUDE example_attitude); None;
              Some (LOCAL_POSITION_NED example_position); None] |}.

Definition example_partial_outputs : run_output * run_output :=
  (((false, None), [DebugAttitude 0.25; ErrorTimeout],
    {| clock := [102; 102.5; 103.5]%float;
       link := [Some (LOCAL_POSITION_NED example_position); None] |}),
   ((false, None), [DebugPosition 1 2 8; ErrorTimeout],
    {| clock := []; link := [] |})).

End Telemetry.

(** * Command (modules/command/command.py) *)

Module Command.

(** 3D vector struct. *)
Record Position : Type := mkPosition {
  x : float;
  y : float;
  z : float
}.

(** Tolerance for altitude adjustment (meters). *)
Definition HEIGHT_TOLERANCE : float := 0.5%float.
(** Tolerance for yaw adjustment (degrees). *)
Definition ANGLE_TOLERANCE : float := 5%float.
(** Speed for altitude change (m/s). *)
Definition Z_SPEED : float := 1%float.
(** Turning speed for yaw change (deg/s). *)
Definition TURNING_SPEED : float := 5%float.

(** [math.pi]: the binary64 number nearest to pi. *)
Definition pi : float := 0x1.921fb54442d18p+1%float.

(** [math.degrees(x)], which CPython computes as [x * (180.0 / pi)]. *)
Definition degrees (r : float) : float := (r * (180 / pi))%float.

(** [math.radians(x)], which CPython computes as [x * (pi / 180.0)]. *)
Definition radians (d : float) : float := (d * (pi / 180))%float.

(** [mavutil.mavlink.MAV_CMD_CONDITION_CHANGE_ALT] and [MAV_CMD_CONDITION_YAW]. *)
Definition MAV_CMD_CONDITION_CHANGE_ALT : Z := 113.
Definition MAV_CMD_CONDITION_YAW : Z := 115.

(** Conversion of a Python [int] to [float] (round to nearest, ties to even),
    as done by [float / int]. *)
Definition float_of_int (n : Z) : float :=
  SF2Prim (binary_normalize prec emax n 0 false).

(** The arguments of one [connection.mav.command_long_send(...)]. *)
Record command_long : Type := mkCommandLong {
  target_system : Z;
  target_component : Z;
  command : Z;
  confirmation : Z;
  param1 : float;
  param2 : float;
  param3 : float;
  param4 : float;
  param5 : float;
  param6 : float;
  param7 : float
}.

(** The status strings "CHANGE ALTITUDE: <delta_z>" and
    "CHANGE YAW: <delta_yaw_deg>", with the number kept as a number. *)
Inductive status : Type :=
| CHANGE_ALTITUDE (delta_z : float)
| CHANGE_YAW (delta_yaw_deg : float).

Inductive log_entry : Type :=
| ErrorNoneTelemetry
| InfoAverageVelocity (avg_vx avg_vy avg_vz : float)
| InfoSentAltitude (delta_z : float)
| InfoSentYaw (delta_yaw_deg : float).

(** The attributes of a [Command] object besides connection and logger. *)
Record state : Type := mkState {
  target : Position;
  total_velocity_x : float;
  total_velocity_y : float;
  total_velocity_z : float;
  sample_count : Z
}.

(** [Command.create] followed by [__init__]: fails when an argument is
    [None]. *)
Definition create (connection_given : bool) (tgt : option Position)
  (logger_given : bool) : bool * option state :=
  if negb connection_given then (false, None)
  else match tgt with
       | None => (false, None)
       | Some t =>
           if negb logger_given then (false, None)
           else (true, Some {| target := t;
                               total_velocity_x := 0; total_velocity_y := 0;
                               total_velocity_z := 0; sample_count := 0 |})
       end.

(** The block "Update average velocity calculation". *)
Definition update_velocity (s : state) (t : Telemetry.TelemetryData)
  : state * list log_entry :=
  match Telemetry.x_velocity t, Telemetry.y_velocity t, Telemetry.z_velocity t with
  | Some vx, Some vy, Some vz =>
      let tx := (total_velocity_x s + vx)%float in
      let ty := (total_velocity_y s + vy)%float in
      let tz := (total_velocity_z s + vz)%float in
      let n := sample_count s + 1 in
      ({| target := target s;
          total_velocity_x := tx; total_velocity_y := ty; total_velocity_z := tz;
          sample_count := n |},
       [InfoAverageVelocity (tx / float_of_int n) (ty / float_of_int n)
                            (tz / float_of_int n)])
  | _, _, _ => (s, [])
  end.

Definition altitude_command (tgt : Position) : command_long :=
  {| target_system := 1; target_component := 0;
     command := MAV_CMD_CONDITION_CHANGE_ALT; confirmation := 0;
     param1 := Z_SPEED; param2 := 0; param3 := 0; param4 := 0;
     param5 := 0; param6 := 0; param7 := z tgt |}.

Definition yaw_command (delta_yaw_deg : float) : command_long :=
  let direction := (if (0 <=? delta_yaw_deg)%float then 1 else -1)%float in
  {| target_system := 1; target_component := 0;
     command := MAV_CMD_CONDITION_YAW; confirmation := 0;
     param1 := abs delta_yaw_deg; param2 := TURNING_SPEED; param3 := direction;
     param4 := 1; param5 := 0; param6 := 0; param7 := 0 |}.

(** [while delta_yaw > math.pi: delta_yaw -= 2 * math.pi].  [None] when
    the loop is still running after [fuel] iterations. *)
Fixpoint normalize_down (fuel : nat) (delta_yaw : float) : option float :=
  if (pi <? delta_yaw)%float then
    match fuel with
    | O => None
    | S fuel' => normalize_down fuel' (delta_yaw - 2 * pi)%float
    end
  else Some delta_yaw.

(** [while delta_yaw < -math.pi: delta_yaw += 2 * math.pi]. *)
Fixpoint normalize_up (fuel : nat) (delta_yaw : float) : option float :=
  if (delta_yaw <? - pi)%float then
    match fuel with
    | O => None
    | S fuel' => normalize_up fuel' (delta_yaw + 2 * pi)%float
    end
  else Some delta_yaw.

(** The two loops one after the other. *)
Definition normalize (fuel : nat) (delta_yaw : float) : option float :=
  match normalize_down fuel delta_yaw with
  | None => None
  | Some d => normalize_up fuel d
  end.

(** What one call sends, logs and returns. *)
Definition effects : Type := list command_long * list log_entry * (bool * option status).

(** The block "Check if altitude adjustment is needed": [Some] when the
    function returns from inside it. *)
Definition altitude_check (s : state) (t : Telemetry.TelemetryData) : option effects :=
  match Telemetry.z t with
  | Some tz =>
      let delta_z := (z (target s) - tz)%float in
      if (HEIGHT_TOLERANCE <? abs delta_z)%float then
        Some ([altitude_command (target s)], [InfoSentAltitude delta_z],
              (true, Some (CHANGE_ALTITUDE delta_z)))
      else None
  | None => None
  end.

Section WithAtan2.

(** [math.atan2], a function of the C library. *)
Variable atan2 : float -> float -> float.

(** The block "Check if yaw adjustment is needed" followed by the final
    [return False, None].  [None] when a normalisation loop does not end
    within [fuel] iterations; the loops come before the send, so nothing has
    been sent by then. *)
Definition yaw_check (fuel : nat) (s : state) (t : Telemetry.TelemetryData)
  : option effects :=
  match Telemetry.x t, Telemetry.y t, Telemetry.yaw t with
  | Some tx, Some ty, Some tyaw =>
      let dx := (x (target s) - tx)%float in
      let dy := (y (target s) - ty)%float in
      let desired_yaw := atan2 dy dx in
      let delta_yaw := (desired_yaw - tyaw)%float in
      match normalize fuel delta_yaw with
      | None => None
      | Some delta_yaw' =>
          let delta_yaw_deg := degrees delta_yaw' in
          if (ANGLE_TOLERANCE <? abs delta_yaw_deg)%float then
            Some ([yaw_command delta_yaw_deg], [InfoSentYaw delta_yaw_deg],
                  (true, Some (CHANGE_YAW delta_yaw_deg)))
          else Some ([], [], (false, None))
      end
  | _, _, _ => Some ([], [], (false, None))
  end.

(** [Command.run]. *)
Definition run (fuel : nat) (s : state) (telemetry_data : option Telemetry.TelemetryData)
  : option (state * effects) :=
  match telemetry_data with
  | None => Some (s, ([], [ErrorNoneTelemetry], (false, None)))
  | Some t =>
      let '(s', l) := update_velocity s t in
      match altitude_check s' t with
      | Some (cmds, l', r) => Some (s', (cmds, l ++ l', r))
      | None =>
          match yaw_check fuel s' t with
          | None => None
          | Some (cmds, l', r) => Some (s', (cmds, l ++ l', r))
          end
      end
  end.

End WithAtan2.

Definition sent (e : effects) : list command_long := fst (fst e).
Definition returned (e : effects) : bool * option status := snd e.

(** The 53-bit mantissa of [pi]: [pi] is [pi_mantissa * 2^-51]. *)
Definition pi_mantissa : positive := 7074237752028440.

(** The 53-bit mantissa of 8: [8] is [eight_mantissa * 2^-49]. *)
Definition eight_mantissa : positive := 4503599627370496.

(** Sample inputs. *)

(** The double nearest to 0.51. *)
Definition just_above_tolerance : float := 0x1.051eb851eb852p-1%float.

(** A yaw difference of 10^17 radians, a double. *)
Definition large_delta : float := 1e17%float.

Definition example_state (tgt : Position) : state :=
  {| target := tgt; total_velocity_x := 0; total_velocity_y := 0;
     total_velocity_z := 0; sample_count := 0 |}.

(** A snapshot that gives position and yaw only. *)
Definition example_telemetry (tx ty : float) (tz : option float) (tyaw : float)
  : Telemetry.TelemetryData :=
  {| Telemetry.time_since_boot := Some 1500;
     Telemetry.x := Some tx; Telemetry.y := Some ty; Telemetry.z := tz;
     Telemetry.x_velocity := None; Telemetry.y_velocity := None;
     Telemetry.z_velocity := None;
     Telemetry.roll := Some 0%float; Telemetry.pitch := Some 0%float;
     Telemetry.yaw := Some tyaw;
     Telemetry.roll_speed := None; Telemetry.pitch_speed := None;
     Telemetry.yaw_speed := None |}.

(** The value of [atan2] at [(10, 0)], for a target straight along the y
    axis. *)
Definition atan2_quarter_turn (dy dx : float) : float := (pi / 2)%float.

End Command.

(** * command_worker (modules/command/command_worker.py) *)

Module CommandWorker.

Inductive log_entry : Type :=
| InfoLoggerInitialized
| ErrorFailedToCreate
| InfoCreated
| InfoSentinel
| InfoReceived (t : Telemetry.TelemetryData)
| FromCommand (l : Command.log_entry)
| InfoStatusSent (s : Command.status)
| InfoExiting.

(** What the worker has done when it returns: the object's attributes, the
    commands sent on the connection, the statuses put on the output queue,
    the log, and what is left on the input queue. *)
Record output : Type := mkOutput {
  final : option Command.state;
  commands : list Command.command_long;
  output_queue : list Command.status;
  logs : list log_entry;
  input_queue : list (option Telemetry.TelemetryData)
}.

Section WithAtan2.

Variable atan2 : float -> float -> float.

(** The statements after [command_instance.run]: the status is put on the
    output queue when [result and status is not None]. *)
Definition put_status (r : bool * option Command.status)
  : list Command.status * list log_entry :=
  match r with
  | (true, Some st) => ([st], [InfoStatusSent st])
  | _ => ([], [])
  end.

(** The main loop.  [exits] are the successive answers of
    [controller.is_exit_requested()], one per iteration; [queue] is the
    input queue, whose [get] raises [Empty] when nothing is there, which the
    [except] clause turns into [continue].  [None] when the answers are used
    up before the loop ends or a call of [Command.run] does not return. *)
Fixpoint main_loop (fuel : nat) (exits : list bool) (s : Command.state)
  (queue : list (option Telemetry.TelemetryData))
  (cmds : list Command.command_long) (out : list Command.status)
  (lg : list log_entry) {struct exits} : option output :=
  match exits with
  | [] => None
  | true :: _ =>
      Some {| final := Some s; commands := cmds; output_queue := out;
              logs := lg ++ [InfoExiting]; input_queue := queue |}
  | false :: exits' =>
      match queue with
      | [] => main_loop fuel exits' s [] cmds out lg
      | None :: queue' =>
          Some {| final := Some s; commands := cmds; output_queue := out;
                  logs := lg ++ [InfoSentinel; InfoExiting]; input_queue := queue' |}
      | Some telemetry_data :: queue' =>
          match Command.run atan2 fuel s (Some telemetry_data) with
          | None => None
          | Some (s', (c, l, r)) =>
              let '(put, l') := put_status r in
              main_loop fuel exits' s' queue' (cmds ++ c) (out ++ put)
                (lg ++ [InfoReceived telemetry_data] ++ map FromCommand l ++ l')
          end
      end
  end.

(** [command_worker], once its logger is created. *)
Definition command_worker (fuel : nat) (connection_given : bool)
  (target : option Command.Position) (exits : list bool)
  (queue : list (option Telemetry.TelemetryData)) : option output :=
  match Command.create connection_given target true with
  | (true, Some command_instance) =>
      main_loop fuel exits command_instance queue [] []
        [InfoLoggerInitialized; InfoCreated]
  | _ =>
      Some {| final := None; commands := []; output_queue := [];
              logs := [InfoLoggerInitialized; ErrorFailedToCreate];
              input_queue := queue |}
  end.

End WithAtan2.

(** The same outcome with another input queue left over. *)
Definition with_input_queue (o : output) (q : list (option Telemetry.TelemetryData))
  : output :=
  {| final := final o; commands := commands o; output_queue := output_queue o;
     logs := logs o; input_queue := q |}.

(** A sample run: one snapshot 2 m below the target, the sentinel, and one
    more snapshot behind it. *)
Definition example_target : Command.Position := Command.mkPosition 0 10 10.

Definition example_first : Telemetry.TelemetryData :=
  Command.example_telemetry 0 0 (Some 8%float) 0.

Definition example_behind : Telemetry.TelemetryData :=
  Command.example_telemetry 5 5 (Some 2%float) 1.

Definition example_output : output :=
  {| final := Some (Command.example_state example_target);
     commands := [Command.altitude_command example_target];
     output_queue := [Command.CHANGE_ALTITUDE 2];
     logs := [InfoLoggerInitialized; InfoCreated; InfoReceived example_first;
              FromCommand (Command.InfoSentAltitude 2);
              InfoStatusSent (Command.CHANGE_ALTITUDE 2);
              InfoSentinel; InfoExiting];
     input_queue := [Some example_behind] |}.

End CommandWorker.

(** * HeartbeatSender (modules/heartbeat/heartbeat_sender.py) *)

Module HeartbeatSender.

(** [mavutil.mavlink.MAV_TYPE_GCS] and [MAV_AUTOPILOT_INVALID]. *)
Definition MAV_TYPE_GCS : Z := 6.
Definition MAV_AUTOPILOT_INVALID : Z := 8.

(** The arguments of one [connection.mav.heartbeat_send(...)]. *)
Record heartbeat : Type := mkHeartbeat {
  hb_type : Z;
  autopilot : Z;
  base_mode : Z;
  custom_mode : Z;
  system_status : Z
}.

(** What [heartbeat_send] can do: return, or raise. *)
Inductive send_result : Type :=
| SendOk
| SendRaise (e : string).

(** [HeartbeatSender.create] followed by [__init__]: the object holds the
    connection only. *)
Definition create (connection_given : bool) : bool * option unit :=
  if negb connection_given then (false, None) else (true, Some tt).

(** [HeartbeatSender.run]: the message handed to [heartbeat_send], and the
    first component of the returned tuple (the second is always [None]). *)
Definition run (r : send_result) : heartbeat * bool :=
  ({| hb_type := MAV_TYPE_GCS; autopilot := MAV_AUTOPILOT_INVALID;
      base_mode := 0; custom_mode := 0; system_status := 0 |},
   match r with
   | SendOk => true
   | SendRaise _ => false
   end).

End HeartbeatSender.

(** * heartbeat_sender_worker (modules/heartbeat/heartbeat_sender_worker.py) *)

Module HeartbeatSenderWorker.

(** Heartbeat period in seconds: the [int] 1, added to a [float]. *)
Definition HEARTBEAT_PERIOD : float := 1%float.

Inductive log_entry : Type :=
| InfoLoggerInitialized
| ErrorFailedToCreate
| InfoCreated
| InfoHeartbeatSent
| ErrorFailedToSend
| InfoExiting.

(** What the worker has done when it returns: the heartbeats handed to
    [heartbeat_send], one entry per iteration for [time.sleep] ([None] when
    the iteration does not sleep), and the log. *)
Record output : Type := mkOutput {
  attempts : list HeartbeatSender.heartbeat;
  sleeps : list (option float);
  logs : list log_entry
}.

(** The end of an iteration: the new deadline and the sleep it asks for. *)
Definition schedule (next_heartbeat_time now : float) : float * option float :=
  let next_heartbeat_time := (next_heartbeat_time + HEARTBEAT_PERIOD)%float in
  let sleep_time := (next_heartbeat_time - now)%float in
  (next_heartbeat_time, if (0 <? sleep_time)%float then Some sleep_time else None).

(** The main loop.  [exits] are the successive answers of
    [controller.is_exit_requested()], [sends] what the successive calls of
    [heartbeat_send] do, [clk] the successive readings of [time.time()].
    [None] when one of the scripts is used up before the loop ends. *)
Fixpoint main_loop (exits : list bool) (next_heartbeat_time : float)
  (clk : list float) (sends : list HeartbeatSender.send_result)
  (att : list HeartbeatSender.heartbeat) (sl : list (option float))
  (lg : list log_entry) {struct exits} : option output :=
  match exits with
  | [] => None
  | true :: _ =>
      Some {| attempts := att; sleeps := sl; logs := lg ++ [InfoExiting] |}
  | false :: exits' =>
      match sends, clk with
      | r :: sends', now :: clk' =>
          let '(msg, result) := HeartbeatSender.run r in
          let l := if result then InfoHeartbeatSent else ErrorFailedToSend in
          let '(next_heartbeat_time', s) := schedule next_heartbeat_time now in
          main_loop exits' next_heartbeat_time' clk' sends'
            (att ++ [msg]) (sl ++ [s]) (lg ++ [l])
      | _, _ => None
      end
  end.

(** [heartbeat_sender_worker], once its logger is created. *)
Definition heartbeat_sender_worker (connection_given : bool) (exits : list bool)
  (clk : list float) (sends : list HeartbeatSender.send_result) : option output :=
  match HeartbeatSender.create connection_given with
  | (true, Some _) =>
      match clk with
      | [] => None
      | next_heartbeat_time :: clk' =>
          main_loop exits next_heartbeat_time clk' sends [] []
            [InfoLoggerInitialized; InfoCreated]
      end
  | _ =>
      Some {| attempts := []; sleeps := [];
              logs := [InfoLoggerInitialized; ErrorFailedToCreate] |}
  end.

(** The deadline after [k] iterations: [k] periods added one by one to the
    time read at the start. *)
Definition deadline (start_time : float) (k : nat) : float :=
  Nat.iter k (fun t => (t + HEARTBEAT_PERIOD)%float) start_time.

(** The sleep of iteration number [k] (from 0), given the clock reading
    [now] of that iteration. *)
Definition planned_sleep (start_time : float) (k : nat) (now : float) : option float :=
  snd (schedule (deadline start_time k) now).

(** The planned sleeps of successive iterations from number [k] on. *)
Fixpoint planned_sleeps (start_time : float) (k : nat) (nows : list float)
  : list (option float) :=
  match nows with
  | [] => []
  | now :: nows' => planned_sleep start_time k now :: planned_sleeps start_time (S k) nows'
  end.

(** The heartbeat every call of [HeartbeatSender.run] hands over. *)
Definition the_heartbeat : HeartbeatSender.heartbeat :=
  fst (HeartbeatSender.run HeartbeatSender.SendOk).

(** The log line of an iteration. *)
Definition send_log (r : HeartbeatSender.send_result) : log_entry :=
  if snd (HeartbeatSender.run r) then InfoHeartbeatSent else ErrorFailedToSend.

End HeartbeatSenderWorker.

(** * heartbeat_receiver_worker (modules/heartbeat/heartbeat_receiver_worker.py) *)

Module HeartbeatReceiverWorker.

Inductive log_entry : Type :=
| InfoLoggerInitialized
| ErrorFailedToCreate
| InfoCreated
| FromReceiver (l : HeartbeatReceiver.log_entry)
| InfoConnectionStatus (status : string)
| InfoExiting.

(** What the worker has done when it returns: the receiver's attributes, the
    statuses put on the output queue, and the log. *)
Record output : Type := mkOutput {
  final : option HeartbeatReceiver.state;
  output_queue : list string;
  logs : list log_entry
}.

(** The main loop, one [receiver.run()] per iteration.  [None] when a script
    is used up before the loop ends. *)
Fixpoint main_loop (exits : list bool) (s : HeartbeatReceiver.state)
  (recvs : list HeartbeatReceiver.recv_result) (out : list string)
  (lg : list log_entry) {struct exits} : option (outcome output) :=
  match exits with
  | [] => None
  | true :: _ =>
      Some (Returned {| final := Some s; output_queue := out;
                        logs := lg ++ [InfoExiting] |})
  | false :: exits' =>
      match recvs with
      | [] => None
      | r :: recvs' =>
          match HeartbeatReceiver.run s r with
          | (s', l, Returned (result, status)) =>
              if result then
                main_loop exits' s' recvs' (out ++ [status])
                  (lg ++ map FromReceiver l ++ [InfoConnectionStatus status])
              else
                main_loop exits' s' recvs' out (lg ++ map FromReceiver l)
          | (_, _, Raised e) => Some (Raised e)
          end
      end
  end.

(** [HeartbeatReceiver.create] followed by [__init__]. *)
Definition create (connection_given logger_given : bool)
  : bool * option HeartbeatReceiver.state :=
  if negb connection_given then (false, None)
  else if negb logger_given then (false, None)
  else (true, Some HeartbeatReceiver.init).

(** [heartbeat_receiver_worker], once its logger is created. *)
Definition heartbeat_receiver_worker (connection_given : bool) (exits : list bool)
  (recvs : list HeartbeatReceiver.recv_result) : option (outcome output) :=
  match create connection_given true with
  | (true, Some receiver) =>
      main_loop exits receiver recvs [] [InfoLoggerInitialized; InfoCreated]
  | _ =>
      Some (Returned {| final := None; output_queue := [];
                        logs := [InfoLoggerInitialized; ErrorFailedToCreate] |})
  end.

(** The last [DISCONNECT_THRESHOLD] results of [recv_match], latest first. *)
Definition recent (rs : list HeartbeatReceiver.recv_result)
  : list HeartbeatReceiver.recv_result :=
  firstn (Z.to_nat HeartbeatReceiver.DISCONNECT_THRESHOLD) (rev rs).

(** The misses at the end of a sequence of results: their number. *)
Fixpoint leading_misses (rs : list HeartbeatReceiver.recv_result) : nat :=
  match rs with
  | [] => O
  | r :: rs' => if HeartbeatReceiver.is_heartbeat r then O else S (leading_misses rs')
  end.

Definition trailing_misses (rs : list HeartbeatReceiver.recv_result) : nat :=
  leading_misses (rev rs).

(** The status after each of the first, the first two, ... of the results. *)
Fixpoint statuses (s : HeartbeatReceiver.state) (rs : list HeartbeatReceiver.recv_result)
  : list string :=
  match rs with
  | [] => []
  | r :: rs' =>
      HeartbeatReceiver.status_string (HeartbeatReceiver.run_state s r)
        :: statuses (HeartbeatReceiver.run_state s r) rs'
  end.

End HeartbeatReceiverWorker.

(** * telemetry_worker (modules/telemetry/telemetry_worker.py) *)

Module TelemetryWorker.

Inductive log_entry : Type :=
| InfoLoggerInitialized
| ErrorFailedToCreate
| InfoCreated
| FromTelemetry (l : Telemetry.log_entry)
| InfoSentToQueue (t : Telemetry.TelemetryData)
| InfoExiting.

(** What the worker has done when it returns: the snapshots put on the
    output queue, the log, and the world that is left. *)
Record output : Type := mkOutput {
  output_queue : list Telemetry.TelemetryData;
  logs : list log_entry;
  rest : Telemetry.world
}.

(** The main loop, one [telemetry_instance.run()] per iteration; the
    snapshot is put on the queue when [result and telemetry_data is not
    None].  [None] when a script is used up before the loop ends. *)
Fixpoint main_loop (exits : list bool) (w : Telemetry.world)
  (out : list Telemetry.TelemetryData) (lg : list log_entry) {struct exits}
  : option output :=
  match exits with
  | [] => None
  | true :: _ =>
      Some {| output_queue := out; logs := lg ++ [InfoExiting]; rest := w |}
  | false :: exits' =>
      match Telemetry.run w with
      | None => None
      | Some ((result, telemetry_data), l, w') =>
          match result, telemetry_data with
          | true, Some t =>
              main_loop exits' w' (out ++ [t])
                (lg ++ map FromTelemetry l ++ [InfoSentToQueue t])
          | _, _ => main_loop exits' w' out (lg ++ map FromTelemetry l)
          end
      end
  end.

(** [Telemetry.create]: fails when an argument is [None]. *)
Definition create (connection_given logger_given : bool) : bool :=
  if negb connection_given then false
  else if negb logger_given then false
  else true.

(** [telemetry_worker], once its logger is created. *)
Definition telemetry_worker (connection_given : bool) (exits : list bool)
  (w : Telemetry.world) : option output :=
  if create connection_given true then
    main_loop exits w [] [InfoLoggerInitialized; InfoCreated]
  else
    Some {| output_queue := []; logs := [InfoLoggerInitialized; ErrorFailedToCreate];
            rest := w |}.

Definition present {A : Type} (o : option A) : bool :=
  match o with Some _ => true | None => false end.

(** Every attribute of the snapshot is there. *)
Definition complete (t : Telemetry.TelemetryData) : bool :=
  present (Telemetry.time_since_boot t)
  && present (Telemetry.x t) && present (Telemetry.y t) && present (Telemetry.z t)
  && present (Telemetry.x_velocity t) && present (Telemetry.y_velocity t)
  && present (Telemetry.z_velocity t)
  && present (Telemetry.roll t) && present (Telemetry.pitch t)
  && present (Telemetry.yaw t)
  && present (Telemetry.roll_speed t) && present (Telemetry.pitch_speed t)
  && present (Telemetry.yaw_speed t).




(** No clock reading of the list is past the time budget. *)
Definition in_budget (start_time : float) (nows : list float) : bool :=
  forallb (fun now => negb (Telemetry.expired start_time now)) nows.

(** The snapshots that [n] calls of [Telemetry.run] in a row return, in
    order: the snapshot of each call that returns [(True, data)], nothing
    for a call that returns [(False, None)]. *)
Fixpoint snapshots_of_rounds (n : nat) (w : Telemetry.world)
  : list Telemetry.TelemetryData :=
  match n with
  | O => []
  | S n' =>
      match Telemetry.run w with
      | Some ((true, Some t), _, w') => t :: snapshots_of_rounds n' w'
      | Some (_, _, w') => snapshots_of_rounds n' w'
      | None => []
      end
  end.

(** An attitude message alone in the budget of a first call, then a
    position and an attitude message in the budget of a second call. *)
Definition example_fail_then_success : Telemetry.world :=
  {| Telemetry.clock := [100; 100.5; 101.5; 102; 102.25]%float;
     Telemetry.link := [Some (Telemetry.ATTITUDE Telemetry.example_attitude); None;
                        Some (Telemetry.LOCAL_POSITION_NED Telemetry.example_position);
                        Some (Telemetry.ATTITUDE Telemetry.example_attitude)] |}.

End TelemetryWorker.

(** * Statuses and the commands they report *)

Module StatusCommand.

(** The command that [Command.run] has sent when it returns the status
    [st], for the target [tgt]. *)
Definition command_for (tgt : Command.Position) (st : Command.status)
  : Command.command_long :=
  match st with
  | Command.CHANGE_ALTITUDE _ => Command.altitude_command tgt
  | Command.CHANGE_YAW delta_yaw_deg => Command.yaw_command delta_yaw_deg
  end.

(** The statuses a returned tuple stands for: one when it is
    [(True, status)], none otherwise. *)
Definition reported (r : bool * option Command.status) : list Command.status :=
  match r with
  | (true, Some st) => [st]
  | _ => []
  end.

End StatusCommand.

(** * Properties of HeartbeatReceiver *)

Section HeartbeatProperties.

Import HeartbeatReceiver.

Lemma run_state_heartbeat (s : state) (r : recv_result) :
  is_heartbeat r = true ->
  run_state s r = {| missed_heartbeats := 0; is_connected := true |}.
Proof.
  destruct r as [|ty|e]; simpl; try discriminate.
  intros H. unfold run_state, run, try_body. rewrite H. reflexivity.
Qed.

Lemma run_state_miss (s : state) (r : recv_result) :
  is_heartbeat r = false ->
  run_state s r =
    {| missed_heartbeats := missed_heartbeats s + 1;
       is_connected := if DISCONNECT_THRESHOLD <=? missed_heartbeats s + 1
                       then false else is_connected s |}.
Proof.
  intros H. unfold run_state, run, try_body, except_handler.
  destruct r as [|ty|e]; simpl in H; try rewrite H;
    destruct (DISCONNECT_THRESHOLD <=? missed_heartbeats s + 1); reflexivity.
Qed.

Lemma run_result_status (s : state) (r : recv_result) :
  run_result s r = Returned (true, status_string (run_state s r)).
Proof.
  unfold run_result, run_state, run.
  destruct (match try_body s r with Returned sl => sl | Raised e => except_handler s e end).
  reflexivity.
Qed.

Lemma run_from_app (s : state) (rs1 rs2 : list recv_result) :
  run_from s (rs1 ++ rs2) = run_from (run_from s rs1) rs2.
Proof. unfold run_from. apply fold_left_app. Qed.

End HeartbeatProperties.

Section HeartbeatSequences.

Import HeartbeatReceiver.

Lemma run_all_snoc (rs : list recv_result) (r : recv_result) :
  run_all (rs ++ [r]) = run_state (run_all rs) r.
Proof. unfold run_all. rewrite run_from_app. reflexivity. Qed.

Lemma ever_received_snoc (rs : list recv_result) (r : recv_result) :
  ever_received (rs ++ [r]) = ever_received rs || is_heartbeat r.
Proof. unfold ever_received. rewrite existsb_app. simpl. now rewrite orb_false_r. Qed.

(** The state after a run of misses, whatever the state before. *)
Lemma run_from_all_missed (rs : list recv_result) :
  forall s, all_missed rs = true ->
    missed_heartbeats (run_from s rs) = missed_heartbeats s + Z.of_nat (List.length rs)
    /\ is_connected (run_from s rs) =
         is_connected s &&
         ((Z.of_nat (List.length rs) =? 0)
          || (missed_heartbeats s + Z.of_nat (List.length rs) <? DISCONNECT_THRESHOLD)).
Proof.
  induction rs as [|r rs IH]; intros s Hall.
  - simpl. split; [lia | now rewrite andb_true_r].
  - simpl in Hall. apply andb_true_iff in Hall as [Hr Hrs].
    apply negb_true_iff in Hr.
    change (run_from s (r :: rs)) with (run_from (run_state s r) rs).
    destruct (IH (run_state s r) Hrs) as [Hm Hc].
    rewrite Hm, Hc, (run_state_miss s r Hr). cbn [missed_heartbeats is_connected].
    rewrite length_cons, Nat2Z.inj_succ. split; [lia|].
    unfold DISCONNECT_THRESHOLD.
    destruct (is_connected s); cbn [andb];
      repeat match goal with
             | |- context [?a <=? ?b] => destruct (Z.leb_spec a b)
             | |- context [?a <? ?b] => destruct (Z.ltb_spec a b)
             | |- context [?a =? ?b] => destruct (Z.eqb_spec a b)
             end; cbn; try reflexivity; lia.
Qed.

(** The counter never goes below zero, and when connected it is below the
    threshold. *)
Lemma run_all_invariant (rs : list recv_result) :
  0 <= missed_heartbeats (run_all rs)
  /\ (is_connected (run_all rs) = false <->
      DISCONNECT_THRESHOLD <= missed_heartbeats (run_all rs) \/ ever_received rs = false).
Proof.
  induction rs as [|r rs [IHm IHc]] using rev_ind.
  - cbn. split; [lia | split; auto].
  - rewrite run_all_snoc, ever_received_snoc.
    destruct (is_heartbeat r) eqn:Hr.
    + rewrite (run_state_heartbeat _ _ Hr), orb_true_r. cbn.
      unfold DISCONNECT_THRESHOLD. split; [lia|].
      split; [discriminate | intros [H|H]; [lia | discriminate]].
    + rewrite (run_state_miss _ _ Hr), orb_false_r. cbn [missed_heartbeats is_connected].
      split; [lia|].
      destruct (Z.leb_spec DISCONNECT_THRESHOLD (missed_heartbeats (run_all rs) + 1)).
      * split; auto.
      * rewrite IHc. split; (intros [H'|H']; [left; lia | now right]).
Qed.

End HeartbeatSequences.

(** ** Claims on HeartbeatReceiver *)

Section HeartbeatClaims.

Import HeartbeatReceiver.

(** C2, as stated, fails: the object is constructed Disconnected with a
    counter of zero, so "Disconnected if and only if the counter has reached
    the threshold" is already false in the initial state. *)
Lemma C2_disconnected_iff_threshold_fails :
  ~ (forall s : state, reachable s ->
       (is_connected s = false <-> DISCONNECT_THRESHOLD <= missed_heartbeats s)).
Proof.
  intros H. specialize (H init (ex_intro _ [] eq_refl)).
  destruct H as [H _]. specialize (H eq_refl). cbv in H. now apply H.
Qed.

(** C2, amended: after any sequence of [run] calls since construction, the
    state is Disconnected if and only if the counter of consecutive misses
    has reached the threshold or no heartbeat has been received yet. *)
Theorem C2_disconnected_iff_threshold_or_never_received :
  forall rs : list recv_result,
    is_connected (run_all rs) = false <->
    DISCONNECT_THRESHOLD <= missed_heartbeats (run_all rs) \/ ever_received rs = false.
Proof. intros rs. exact (proj2 (run_all_invariant rs)). Qed.

(** C3: a call that receives a heartbeat sets the counter to 0 and the state
    to Connected whatever came before; a call that misses adds one to the
    counter; starting from a counter of 0, DISCONNECT_THRESHOLD or more
    misses in a row leave the state Disconnected, and fewer leave it as it
    was; every call returns [(True, status)] where the status is the string
    "connected" or "disconnected" of the state the call leaves. *)
Theorem C3_heartbeat_state_machine :
  (forall s r, is_heartbeat r = true ->
     missed_heartbeats (run_state s r) = 0 /\ is_connected (run_state s r) = true)
  /\ (forall s r, is_heartbeat r = false ->
        missed_heartbeats (run_state s r) = missed_heartbeats s + 1)
  /\ (forall s rs, missed_heartbeats s = 0 -> all_missed rs = true ->
        DISCONNECT_THRESHOLD <= Z.of_nat (List.length rs) ->
        is_connected (run_from s rs) = false)
  /\ (forall s rs, missed_heartbeats s = 0 -> all_missed rs = true ->
        Z.of_nat (List.length rs) < DISCONNECT_THRESHOLD ->
        is_connected (run_from s rs) = is_connected s)
  /\ (forall s r,
        run_result s r
        = Returned (true, if is_connected (run_state s r)
                          then "connected"%string else "disconnected"%string)).
Proof.
  repeat split.
  - now rewrite (run_state_heartbeat s r H).
  - now rewrite (run_state_heartbeat s r H).
  - intros s r H. now rewrite (run_state_miss s r H).
  - intros s rs H0 Hall Hlen.
    destruct (run_from_all_missed rs s Hall) as [_ Hc]. rewrite Hc, H0.
    unfold DISCONNECT_THRESHOLD in *.
    destruct (Z.eqb_spec (Z.of_nat (List.length rs)) 0); [lia|].
    destruct (Z.ltb_spec (0 + Z.of_nat (List.length rs)) 5); [lia|].
    now rewrite andb_false_r.
  - intros s rs H0 Hall Hlen.
    destruct (run_from_all_missed rs s Hall) as [_ Hc]. rewrite Hc, H0.
    destruct (Z.ltb_spec (0 + Z.of_nat (List.length rs)) DISCONNECT_THRESHOLD); [|lia].
    now rewrite orb_true_r, andb_true_r.
  - intros s r. apply run_result_status.
Qed.

(** C3 on a concrete run: connected, then five misses, then one heartbeat. *)
Lemma C3_heartbeat_state_machine_witness :
  is_connected (run_from {| missed_heartbeats := 0; is_connected := true |}
                  [RecvNone; RecvNone; RecvRaise "link down"; RecvMsg "ATTITUDE"; RecvNone])
  = false.
Proof.
  apply (proj1 (proj2 (proj2 C3_heartbeat_state_machine))); [reflexivity | reflexivity |].
  vm_compute. discriminate.
Defined.

(** C8: a raise of [recv_match] leaves the object exactly as a timeout does:
    the counter is one higher, the same threshold test decides the state,
    and [run] returns the same tuple instead of raising. *)
Theorem C8_link_error_is_a_miss :
  forall (s : state) (e : string),
    run_state s (RecvRaise e) = run_state s RecvNone
    /\ run_result s (RecvRaise e) = run_result s RecvNone
    /\ missed_heartbeats (run_state s (RecvRaise e)) = missed_heartbeats s + 1
    /\ is_connected (run_state s (RecvRaise e)) =
         (if DISCONNECT_THRESHOLD <=? missed_heartbeats s + 1
          then false else is_connected s)
    /\ exists status, run_result s (RecvRaise e) = Returned (true, status).
Proof.
  intros s e.
  assert (Hs : run_state s (RecvRaise e) = run_state s RecvNone)
    by (now rewrite !run_state_miss).
  repeat split.
  - exact Hs.
  - now rewrite !run_result_status, Hs.
  - now rewrite run_state_miss.
  - now rewrite run_state_miss.
  - eexists. apply run_result_status.
Qed.

End HeartbeatClaims.

(** * Properties of Telemetry *)

Section TelemetryProperties.

Import Telemetry.

Lemma slots_ok_empty : slots_ok empty_slots [].
Proof. split; cbn; discriminate. Qed.

Lemma slots_ok_store (sl : slots) (seen : list (option message)) (msg : option message) :
  slots_ok sl seen -> slots_ok (fst (store sl msg)) (seen ++ [msg]).
Proof.
  intros [Ha Hp].
  destruct msg as [[a|p|ty]|]; cbn; split; cbn; intros m Hm.
  - injection Hm as <-. split; [reflexivity | apply in_or_app; right; now left].
  - destruct (Hp m Hm) as [? ?]. split; [assumption | apply in_or_app; now left].
  - destruct (Ha m Hm) as [? ?]. split; [assumption | apply in_or_app; now left].
  - injection Hm as <-. split; [reflexivity | apply in_or_app; right; now left].
  - destruct (Ha m Hm) as [? ?]. split; [assumption | apply in_or_app; now left].
  - destruct (Hp m Hm) as [? ?]. split; [assumption | apply in_or_app; now left].
  - destruct (Ha m Hm) as [? ?]. split; [assumption | apply in_or_app; now left].
  - destruct (Hp m Hm) as [? ?]. split; [assumption | apply in_or_app; now left].
Qed.

(** What the loop returns, in terms of the results of [recv_match] it has
    popped: either the timeout tuple, or the snapshot fused from an attitude
    and a position message that are in the slots or among those results. *)
Lemma loop_returns (lnk : list (option message)) :
  forall start_time remaining_timeout sl logs clk seen o,
    slots_ok sl seen ->
    loop start_time remaining_timeout sl logs clk lnk = Some o ->
    exists consumed,
      lnk = consumed ++ link (rest o)
      /\ (result o = (false, None)
          \/ exists a p,
               In (Some (ATTITUDE a)) (seen ++ consumed)
               /\ In (Some (LOCAL_POSITION_NED p)) (seen ++ consumed)
               /\ fuses (result o) a p).
Proof.
  induction lnk as [|msg lnk IH]; intros start_time rem sl logs clk seen o Hok Hrun;
    cbn [loop] in Hrun; destruct (0 <? rem)%float.
  - discriminate.
  - injection Hrun as <-. exists []. split; [reflexivity | now left].
  - pose proof (slots_ok_store sl seen msg Hok) as Hok'.
    destruct (store sl msg) as [sl' l]. cbn [fst] in Hok'.
    destruct (attitude_data sl') as [a|] eqn:Ea; [destruct (position_data sl') as [p|] eqn:Ep|].
    + injection Hrun as <-. exists [msg]. split; [reflexivity|]. right.
      destruct Hok' as [Ha Hp].
      destruct (Ha a Ea) as [Hta Hia]. destruct (Hp p Ep) as [Htp Hip].
      exists a, p. repeat split; try assumption.
      unfold fuses, result. cbn. now rewrite Hta, Htp.
    + destruct clk as [|now clk']; [discriminate|].
      destruct (IH _ _ _ _ _ _ _ Hok' Hrun) as (c & Hc & Hres).
      exists (msg :: c). split; [cbn; now rewrite <- Hc|].
      destruct Hres as [Hres | (a' & p' & H1 & H2 & H3)]; [now left | right].
      exists a', p'. rewrite <- app_assoc in H1, H2. now repeat split.
    + destruct clk as [|now clk']; [discriminate|].
      destruct (IH _ _ _ _ _ _ _ Hok' Hrun) as (c & Hc & Hres).
      exists (msg :: c). split; [cbn; now rewrite <- Hc|].
      destruct Hres as [Hres | (a' & p' & H1 & H2 & H3)]; [now left | right].
      exists a', p'. rewrite <- app_assoc in H1, H2. now repeat split.
  - injection Hrun as <-. exists []. split; [reflexivity | now left].
Qed.

(** The same for a whole call, which starts from empty slots. *)
Lemma run_returns (w : world) (o : run_output) :
  run w = Some o ->
  exists consumed,
    link w = consumed ++ link (rest o)
    /\ (result o = (false, None)
        \/ exists a p,
             In (Some (ATTITUDE a)) consumed
             /\ In (Some (LOCAL_POSITION_NED p)) consumed
             /\ fuses (result o) a p).
Proof.
  unfold run. destruct (clock w) as [|start_time clk]; [discriminate|].
  intros Hrun. exact (loop_returns _ _ _ _ _ _ [] o slots_ok_empty Hrun).
Qed.

(** Once the remaining time is not positive the loop returns the timeout
    tuple. *)
Lemma loop_expired (start_time remaining_timeout : float) (sl : slots)
  (logs : list log_entry) (clk : list float) (lnk : list (option message)) :
  (0 <? remaining_timeout)%float = false ->
  loop start_time remaining_timeout sl logs clk lnk
  = Some ((false, None), logs ++ [ErrorTimeout], {| clock := clk; link := lnk |}).
Proof. intros H. destruct lnk; cbn [loop]; rewrite H; reflexivity. Qed.

(** A slot that is empty stays empty over a message of another kind. *)
Lemma store_lacks_one_kind (sl : slots) (msg : option message)
  (l : list (option message)) :
  lacks_one_kind sl (msg :: l) -> lacks_one_kind (fst (store sl msg)) l.
Proof.
  unfold lacks_one_kind. cbn [existsb].
  intros [[Hs Hl] | [Hs Hl]]; apply orb_false_iff in Hl as [Hm Hl]; [left | right];
    (split; [|exact Hl]); destruct msg as [[a|p|ty]|]; cbn in *;
    try discriminate; assumption.
Qed.

(** The loop returns, and returns the timeout tuple, when the clock passes
    the budget at its reading number [k] and the results of [recv_match] up
    to then lack one kind of message. *)
Lemma loop_times_out (k : nat) :
  forall clk lnk start_time remaining_timeout sl logs now,
    nth_error clk k = Some now ->
    expired start_time now = true ->
    (k < List.length lnk)%nat ->
    lacks_one_kind sl (firstn (S k) lnk) ->
    exists o,
      loop start_time remaining_timeout sl logs clk lnk = Some o
      /\ result o = (false, None).
Proof.
  induction k as [|k IH]; intros clk lnk start_time rem sl logs now Hnow Hexp Hlen Hlack;
    (destruct (0 <? rem)%float eqn:Erem;
     [|rewrite (loop_expired _ _ _ _ _ _ Erem); eexists; split; reflexivity]);
    (destruct lnk as [|msg lnk]; [cbn in Hlen; lia|]);
    cbn [loop]; rewrite Erem;
    rewrite firstn_cons in Hlack;
    pose proof (store_lacks_one_kind sl msg _ Hlack) as Hlack';
    destruct (store sl msg) as [sl' l]; cbn [fst] in Hlack';
    (destruct clk as [|c clk]; [discriminate|]).
  - cbn in Hnow. injection Hnow as ->.
    unfold expired in Hexp. apply negb_true_iff in Hexp.
    destruct Hlack' as [[Hs _] | [Hs _]]; rewrite Hs;
      [|destruct (attitude_data sl')];
      rewrite (loop_expired _ _ _ _ _ _ Hexp); eexists; split; reflexivity.
  - cbn in Hnow. cbn in Hlen.
    assert (Hlen' : (k < List.length lnk)%nat) by lia.
    destruct Hlack' as [[Hs Hl] | [Hs Hl]]; rewrite Hs;
      [|destruct (attitude_data sl') eqn:Ea];
      (eapply IH; [exact Hnow | exact Hexp | exact Hlen' |]).
    + left. now split.
    + right. now split.
    + right. now split.
Qed.

Lemma in_existsb_attitude (a : attitude_msg) (l : list (option message)) :
  In (Some (ATTITUDE a)) l -> existsb is_attitude l = true.
Proof. intros H. apply existsb_exists. now exists (Some (ATTITUDE a)). Qed.

Lemma in_existsb_position (p : position_msg) (l : list (option message)) :
  In (Some (LOCAL_POSITION_NED p)) l -> existsb is_position l = true.
Proof. intros H. apply existsb_exists. now exists (Some (LOCAL_POSITION_NED p)). Qed.

End TelemetryProperties.

(** ** Claims on Telemetry *)

Section TelemetryClaims.

Import Telemetry.

(** C5: when [run] returns a snapshot, it is fused from an attitude message
    and a position message received during that call, and its
    [time_since_boot] is the maximum of their two [time_boot_ms]. *)
Theorem C5_snapshot_time_is_max :
  forall (w : world) (o : run_output) (t : TelemetryData),
    run w = Some o ->
    result o = (true, Some t) ->
    exists a p consumed,
      link w = consumed ++ link (rest o)
      /\ In (Some (ATTITUDE a)) consumed
      /\ In (Some (LOCAL_POSITION_NED p)) consumed
      /\ t = combine (Z.max (att_time_boot_ms a) (pos_time_boot_ms p)) a p
      /\ time_since_boot t = Some (Z.max (att_time_boot_ms a) (pos_time_boot_ms p)).
Proof.
  intros w o t Hrun Hres.
  destruct (run_returns w o Hrun) as (c & Hc & [Hfail | (a & p & Ha & Hp & Hf)]).
  - rewrite Hres in Hfail. discriminate.
  - exists a, p, c. unfold fuses in Hf. rewrite Hres in Hf.
    injection Hf as ->. now repeat split.
Qed.

Lemma C5_snapshot_time_is_max_witness :
  run example_world = Some example_output
  /\ exists a p consumed,
       link example_world = consumed ++ link (rest example_output)
       /\ In (Some (ATTITUDE a)) consumed
       /\ In (Some (LOCAL_POSITION_NED p)) consumed
       /\ combine 1500 example_attitude example_position
          = combine (Z.max (att_time_boot_ms a) (pos_time_boot_ms p)) a p
       /\ time_since_boot (combine 1500 example_attitude example_position)
          = Some (Z.max (att_time_boot_ms a) (pos_time_boot_ms p)).
Proof.
  split; [vm_compute; reflexivity|].
  apply (C5_snapshot_time_is_max example_world example_output); vm_compute; reflexivity.
Defined.

(** C6: a call whose receives bring no attitude message, or no position
    message, until the clock passes the time budget does return, and returns
    [(False, None)], a plain return.  Then take two calls of [run] in a row.  What the first call received is not kept: the second call
    is [run] on the world the first one left, it returns a snapshot only from
    an attitude and a position message that it received itself, and it fails
    as well when its own receives lack one of the two kinds. *)
Theorem C6_partial_message_discarded :
  (forall (start_time : float) (clk : list float) (lnk : list (option message))
          (k : nat) (now : float),
      nth_error clk k = Some now ->
      expired start_time now = true ->
      (k < List.length lnk)%nat ->
      existsb is_attitude (firstn (S k) lnk) = false
      \/ existsb is_position (firstn (S k) lnk) = false ->
      exists o,
        run {| clock := start_time :: clk; link := lnk |} = Some o
        /\ result o = (false, None))
  /\
  forall (w : world) (o1 o2 : run_output),
    run_twice w = Some (o1, o2) ->
    exists consumed1 consumed2,
      link w = consumed1 ++ link (rest o1)
      /\ link (rest o1) = consumed2 ++ link (rest o2)
      /\ run (rest o1) = Some o2
      /\ (existsb is_attitude consumed1 = false \/ existsb is_position consumed1 = false ->
          result o1 = (false, None))
      /\ (existsb is_attitude consumed2 = false \/ existsb is_position consumed2 = false ->
          result o2 = (false, None))
      /\ (forall t, result o2 = (true, Some t) ->
            exists a p,
              In (Some (ATTITUDE a)) consumed2
              /\ In (Some (LOCAL_POSITION_NED p)) consumed2
              /\ fuses (result o2) a p).
Proof.
  split.
  { intros start_time clk lnk k now Hnow Hexp Hlen Hlack. unfold run. cbn [clock link].
    apply (loop_times_out k clk lnk start_time _ _ _ now Hnow Hexp Hlen).
    unfold lacks_one_kind. cbn. tauto. }
  intros w o1 o2. unfold run_twice.
  destruct (run w) as [o1'|] eqn:E1; [|discriminate].
  destruct (run (snd o1')) as [o2'|] eqn:E2; [|discriminate].
  intros H. injection H as -> ->.
  destruct (run_returns _ _ E1) as (c1 & Hc1 & R1).
  destruct (run_returns _ _ E2) as (c2 & Hc2 & R2).
  exists c1, c2. repeat split; try assumption.
  - intros Hlack. destruct R1 as [R1 | (a & p & Ha & Hp & _)]; [exact R1|].
    rewrite (in_existsb_attitude _ _ Ha), (in_existsb_position _ _ Hp) in Hlack.
    destruct Hlack; discriminate.
  - intros Hlack. destruct R2 as [R2 | (a & p & Ha & Hp & _)]; [exact R2|].
    rewrite (in_existsb_attitude _ _ Ha), (in_existsb_position _ _ Hp) in Hlack.
    destruct Hlack; discriminate.
  - intros t Ht. destruct R2 as [R2 | R2]; [|exact R2].
    rewrite Ht in R2. discriminate.
Qed.

Lemma C6_partial_message_discarded_witness :
  (exists o,
     run {| clock := 100%float :: [100.5; 101.5]%float;
            link := [Some (ATTITUDE example_attitude); None] |} = Some o
     /\ result o = (false, None))
  /\ run_twice example_partial_world = Some example_partial_outputs
  /\ exists consumed1 consumed2,
      link example_partial_world = consumed1 ++ link (rest (fst example_partial_outputs))
      /\ link (rest (fst example_partial_outputs))
         = consumed2 ++ link (rest (snd example_partial_outputs))
      /\ run (rest (fst example_partial_outputs)) = Some (snd example_partial_outputs)
      /\ (existsb is_attitude consumed1 = false \/ existsb is_position consumed1 = false ->
          result (fst example_partial_outputs) = (false, None))
      /\ (existsb is_attitude consumed2 = false \/ existsb is_position consumed2 = false ->
          result (snd example_partial_outputs) = (false, None))
      /\ (forall t, result (snd example_partial_outputs) = (true, Some t) ->
            exists a p,
              In (Some (ATTITUDE a)) consumed2
              /\ In (Some (LOCAL_POSITION_NED p)) consumed2
              /\ fuses (result (snd example_partial_outputs)) a p).
Proof.
  split; [|split; [vm_compute; reflexivity|]].
  - apply (proj1 C6_partial_message_discarded 100%float [100.5; 101.5]%float
             [Some (ATTITUDE example_attitude); None] 1%nat 101.5%float);
      [reflexivity | reflexivity | cbn; lia | right; reflexivity].
  - apply (proj2 C6_partial_message_discarded example_partial_world);
      vm_compute; reflexivity.
Defined.

End TelemetryClaims.

(** * Binary64 facts used by the yaw normalisation *)

Section FloatFacts.

Import Command.

(** [pi], [-pi] and [2 * pi] as sign, mantissa and exponent. *)
Lemma Prim2SF_pi : Prim2SF pi = S754_finite false pi_mantissa (-51).
Proof. vm_compute. reflexivity. Qed.
Lemma Prim2SF_opp_pi : Prim2SF (- pi) = S754_finite true pi_mantissa (-51).
Proof. vm_compute. reflexivity. Qed.
Lemma Prim2SF_two_pi : Prim2SF (2 * pi) = S754_finite false pi_mantissa (-50).
Proof. vm_compute. reflexivity. Qed.

(** The number of bits of a positive, and what shifting it left does. *)
Lemma digits2_pos_size (p : positive) : digits2_pos p = Pos.size p.
Proof. induction p; simpl; congruence. Qed.

Lemma digits2_pos_bounds (p : positive) :
  2 ^ (Zpos (digits2_pos p) - 1) <= Zpos p < 2 ^ Zpos (digits2_pos p).
Proof.
  rewrite digits2_pos_size.
  pose proof (Pos.size_gt p) as Hgt. pose proof (Pos.size_le p) as Hle.
  apply Pos2Z.pos_lt_pos in Hgt. apply Pos2Z.pos_le_pos in Hle.
  rewrite Pos2Z.inj_pow in Hgt, Hle. change (Zpos 2) with 2 in Hle.
  rewrite (Pos2Z.inj_xO p) in Hle.
  assert (Hp : 2 ^ Zpos (Pos.size p) = 2 * 2 ^ (Zpos (Pos.size p) - 1)).
  { rewrite <- Z.pow_succ_r by lia. f_equal. lia. }
  rewrite Hp in Hle. lia.
Qed.

Lemma iter_xO_value (m d : positive) : Zpos (Pos.iter xO m d) = Zpos m * 2 ^ Zpos d.
Proof.
  induction d as [|d IH] using Pos.peano_ind.
  - simpl. lia.
  - rewrite Pos.iter_succ, Pos2Z.inj_xO, IH, Pos2Z.inj_succ, Z.pow_succ_r by lia. lia.
Qed.

Lemma iter_xO_digits (m d : positive) :
  Zpos (digits2_pos (Pos.iter xO m d)) = Zpos (digits2_pos m) + Zpos d.
Proof.
  induction d as [|d IH] using Pos.peano_ind.
  - simpl. lia.
  - rewrite Pos.iter_succ. simpl digits2_pos. rewrite Pos2Z.inj_succ, IH. lia.
Qed.

(** Rounding a mantissa of exactly 53 bits at a representable exponent
    leaves it as it is. *)
Lemma binary_round_aux_canonical (s : bool) (m : positive) (e : Z) :
  Zpos (digits2_pos m) = 53 -> -1074 <= e <= 971 ->
  binary_round_aux prec emax s (Zpos m) e loc_Exact = S754_finite s m e.
Proof.
  intros Hd He.
  unfold binary_round_aux, shr_fexp, Zdigits2, shr_record_of_loc.
  rewrite Hd.
  replace (fexp prec emax (53 + e) - e) with 0
    by (unfold fexp, SpecFloat.emin, prec, emax; lia).
  cbn [shr shr_m loc_of_shr_record round_nearest_even Zdigits2].
  rewrite Hd.
  replace (fexp prec emax (53 + e) - e) with 0
    by (unfold fexp, SpecFloat.emin, prec, emax; lia).
  cbn [shr shr_m].
  replace (e <=? emax - prec) with true; [reflexivity|].
  symmetry. apply Z.leb_le. unfold emax, prec. lia.
Qed.

(** Rounding a positive integer of at most 53 bits is exact: the mantissa
    is shifted up to 53 bits. *)
Lemma binary_round_small (s : bool) (k : positive) (e : Z) :
  Zpos (digits2_pos k) <= 53 -> -1021 <= e <= 971 ->
  exists m e', binary_round prec emax s k e = S754_finite s m e'
    /\ Zpos (digits2_pos m) = 53
    /\ e' = e + Zpos (digits2_pos k) - 53
    /\ Zpos m = Zpos k * 2 ^ (53 - Zpos (digits2_pos k)).
Proof.
  intros Hd He. unfold binary_round, shl_align.
  replace (fexp prec emax (Zpos (digits2_pos k) + e) - e)
    with (Zpos (digits2_pos k) - 53)
    by (unfold fexp, SpecFloat.emin, prec, emax; lia).
  destruct (Zpos (digits2_pos k) - 53) as [|q|q] eqn:Eq; try lia.
  - exists k, e. rewrite binary_round_aux_canonical by lia.
    repeat split; try lia. replace (53 - Zpos (digits2_pos k)) with 0 by lia. lia.
  - assert (Hq : Zpos q = 53 - Zpos (digits2_pos k)) by lia.
    exists (Pos.iter xO k q), (fexp prec emax (Zpos (digits2_pos k) + e)).
    assert (Hf : fexp prec emax (Zpos (digits2_pos k) + e) = e + Zpos (digits2_pos k) - 53)
      by (unfold fexp, SpecFloat.emin, prec, emax; lia).
    rewrite binary_round_aux_canonical.
    + repeat split.
      * rewrite iter_xO_digits. lia.
      * exact Hf.
      * rewrite iter_xO_value, Hq. reflexivity.
    + rewrite iter_xO_digits. lia.
    + rewrite Hf. lia.
Qed.

(** [pi] is not below the rounding of a negative integer. *)
Lemma SFltb_pi_negative_round (m : positive) (e : Z) :
  SFltb (S754_finite false pi_mantissa (-51)) (binary_round prec emax true m e) = false.
Proof.
  unfold binary_round.
  destruct (shl_align m e (fexp prec emax (Zpos (digits2_pos m) + e))) as [mz ez].
  unfold binary_round_aux.
  destruct (shr_fexp prec emax (Zpos mz) ez loc_Exact) as [mrs e'].
  destruct (shr_fexp prec emax _ e' loc_Exact) as [mrs'' e''].
  destruct (shr_m mrs''); [reflexivity | destruct (e'' <=? emax - prec); reflexivity | reflexivity].
Qed.

Lemma digits2_pos_le (k : positive) (n : Z) :
  0 <= n -> Zpos k < 2 ^ n -> Zpos (digits2_pos k) <= n.
Proof.
  intros Hn Hk. destruct (digits2_pos_bounds k) as [Hlo _].
  assert (H : 2 ^ (Zpos (digits2_pos k) - 1) < 2 ^ n) by lia.
  apply Z.pow_lt_mono_r_iff in H; lia.
Qed.

(** [pi] is not below the rounding of [k * 2^ez] when that is less than
    [pi], at the two exponents the sum [d + 2 * pi] can have. *)
Lemma SFltb_pi_small_round (k : positive) (ez : Z) :
  (ez = -51 /\ Zpos k < Zpos pi_mantissa) \/ (ez = -50 /\ 2 * Zpos k < Zpos pi_mantissa) ->
  SFltb (S754_finite false pi_mantissa (-51)) (binary_round prec emax false k ez) = false.
Proof.
  intros Hk.
  assert (Hd : Zpos (digits2_pos k) <= 53).
  { apply digits2_pos_le; [lia|]. change (2 ^ 53) with 9007199254740992.
    unfold pi_mantissa in Hk. lia. }
  destruct (binary_round_small false k ez Hd) as (m & e' & -> & _ & He' & Hm); [lia|].
  unfold SFltb, SFcompare.
  destruct (Z.compare_spec (-51) e') as [Heq | Hlt | Hgt]; try reflexivity.
  - destruct Hk as [[-> Hk] | [-> Hk]].
    + replace (53 - Zpos (digits2_pos k)) with 0 in Hm by lia.
      change (2 ^ 0) with 1 in Hm.
      change (Pos.compare_cont Eq pi_mantissa m) with (pi_mantissa ?= m)%positive.
      destruct (Pos.compare_spec pi_mantissa m); try reflexivity. lia.
    + replace (53 - Zpos (digits2_pos k)) with 1 in Hm by lia.
      change (2 ^ 1) with 2 in Hm.
      change (Pos.compare_cont Eq pi_mantissa m) with (pi_mantissa ?= m)%positive.
      destruct (Pos.compare_spec pi_mantissa m); try reflexivity. lia.
  - exfalso. destruct Hk as [[-> Hk] | [-> Hk]]; [lia|].
    assert (Zpos (digits2_pos k) <= 52); [|lia].
    apply digits2_pos_le; [lia|]. change (2 ^ 52) with 4503599627370496.
    unfold pi_mantissa in Hk. lia.
Qed.

(** A double with exponent at least -51 is normal: its mantissa has 53
    bits. *)
Lemma valid_normal (m : positive) (e : Z) :
  bounded prec emax m e = true -> -51 <= e ->
  4503599627370496 <= Zpos m < 9007199254740992 /\ e <= 971.
Proof.
  unfold bounded, canonical_mantissa. intros H He.
  apply andb_true_iff in H as [H1 H2].
  apply Z.eqb_eq in H1. apply Z.leb_le in H2.
  unfold fexp, SpecFloat.emin, prec, emax in *.
  assert (Hd : Zpos (digits2_pos m) = 53) by lia.
  pose proof (digits2_pos_bounds m) as Hb. rewrite Hd in Hb.
  change (2 ^ (53 - 1)) with 4503599627370496 in Hb.
  change (2 ^ 53) with 9007199254740992 in Hb. lia.
Qed.

(** What [d < -pi] says of the mantissa and exponent of a negative [d]. *)
Lemma SFltb_below_opp_pi (m : positive) (e : Z) :
  SFltb (S754_finite true m e) (S754_finite true pi_mantissa (-51)) = true ->
  -51 < e \/ (e = -51 /\ Zpos pi_mantissa < Zpos m).
Proof.
  unfold SFltb, SFcompare. rewrite Pos.compare_cont_spec. cbn [Pos.switch_Eq].
  destruct (Z.compare_spec e (-51)) as [Heq | Hlt | Hgt]; [ | discriminate | lia].
  destruct (Pos.compare_spec m pi_mantissa) as [H | H | H]; cbn [CompOpp]; try discriminate.
  intros _. right. split; [exact Heq | lia].
Qed.

(** One step of the second loop: from below [-pi], adding [2 * pi] does not
    go above [pi].  For [d] between [-2 * pi] and [-pi] the sum is exact;
    further down it is not positive. *)
Lemma add_two_pi_not_above_pi (d : float) :
  (d <? - pi)%float = true -> (pi <? d + 2 * pi)%float = false.
Proof.
  intros H. rewrite ltb_spec in H |- *. rewrite add_spec.
  rewrite Prim2SF_pi, Prim2SF_two_pi. rewrite Prim2SF_opp_pi in H.
  pose proof (Prim2SF_valid d) as Hv.
  destruct (Prim2SF d) as [s|s| |s m e].
  - destruct s; discriminate.
  - destruct s; [reflexivity | discriminate].
  - discriminate.
  - destruct s; [|discriminate].
    cbn [SpecFloat.valid_binary] in Hv.
    pose proof (SFltb_below_opp_pi m e H) as Hcase.
    clear H.
    destruct (valid_normal m e Hv) as [Hm He]; [lia|].
    unfold SF64add, SFadd, cond_Zopp.
    destruct Hcase as [Hgt | [-> Hlt]].
    + replace (Z.min e (-50)) with (-50) by lia.
      assert (HM : exists M, fst (shl_align m e (-50)) = M /\ 4503599627370496 <= Zpos M).
      { unfold shl_align. destruct (-50 - e) as [|q|q] eqn:Eq; cbn [fst].
        - exists m. split; [reflexivity | lia].
        - lia.
        - exists (Pos.iter xO m q). split; [reflexivity|].
          rewrite iter_xO_value. assert (0 < 2 ^ Zpos q) by (apply Z.pow_pos_nonneg; lia). (apply Z.le_trans with (Zpos m * 1); [lia | apply Z.mul_le_mono_nonneg_l; lia]). }
      destruct HM as (M & -> & HM).
      change (fst (shl_align pi_mantissa (-50) (-50))) with pi_mantissa.
      destruct (- Zpos M + Zpos pi_mantissa) as [|k|k] eqn:Ek; cbn [binary_normalize].
      * reflexivity.
      * apply SFltb_pi_small_round. right. split; [reflexivity|]. unfold pi_mantissa in *. lia.
      * apply SFltb_pi_negative_round.
    + change (Z.min (-51) (-50)) with (-51).
      change (fst (shl_align m (-51) (-51))) with m.
      change (fst (shl_align pi_mantissa (-50) (-51))) with (pi_mantissa~0)%positive.
      destruct (- Zpos m + Zpos pi_mantissa~0) as [|k|k] eqn:Ek; cbn [binary_normalize].
      * reflexivity.
      * apply SFltb_pi_small_round. left. split; [reflexivity|].
        rewrite Pos2Z.inj_xO in Ek. lia.
      * apply SFltb_pi_negative_round.
Qed.

(** The order of binary64 numbers is antisymmetric, and total away from
    NaN. *)
Lemma SFcompare_antisym (a b : spec_float) (c : comparison) :
  SFcompare a b = Some c -> SFcompare b a = Some (CompOpp c).
Proof.
  destruct a as [sa|sa| |sa ma ea], b as [sb|sb| |sb mb eb]; cbn;
    try discriminate;
    try (destruct sa; intros H; injection H as <-; reflexivity);
    try (destruct sb; intros H; injection H as <-; reflexivity);
    try (intros H; injection H as <-; reflexivity).
  - destruct sa, sb; intros H; injection H as <-; reflexivity.
  - pose proof (Pos.compare_cont_antisym ma mb Eq) as Hm. cbn [CompOpp] in Hm.
    destruct sa, sb; intros H; injection H as <-; try reflexivity;
      rewrite (Z.compare_antisym ea eb), <- Hm;
      destruct (ea ?= eb); cbn [CompOpp]; try reflexivity;
      destruct (Pos.compare_cont Eq ma mb); reflexivity.
Qed.

Lemma not_nan_compare (r c : float) :
  is_nan r = false -> is_nan c = false ->
  exists k, SFcompare (Prim2SF r) (Prim2SF c) = Some k.
Proof.
  unfold is_nan. intros Hr Hc.
  apply negb_false_iff in Hr, Hc. rewrite FloatAxioms.eqb_spec in Hr, Hc.
  unfold SFeqb in Hr, Hc.
  destruct (Prim2SF r) as [s|s| |s m e], (Prim2SF c) as [s'|s'| |s' m' e']; cbn in *;
    try discriminate; eauto.
Qed.

Lemma ltb_false_leb (r c : float) :
  is_nan r = false -> is_nan c = false ->
  (r <? c)%float = false -> (c <=? r)%float = true.
Proof.
  intros Hr Hc. rewrite ltb_spec, leb_spec. unfold SFltb, SFleb.
  destruct (not_nan_compare r c Hr Hc) as [k Hk].
  rewrite Hk, (SFcompare_antisym _ _ _ Hk).
  destruct k; cbn; congruence.
Qed.

End FloatFacts.

(** * Properties of Command *)

Section CommandProperties.

Import Command.

Variable atan2 : float -> float -> float.

Lemma update_velocity_target (s : state) (t : Telemetry.TelemetryData) :
  target (fst (update_velocity s t)) = target s.
Proof.
  unfold update_velocity.
  destruct (Telemetry.x_velocity t), (Telemetry.y_velocity t), (Telemetry.z_velocity t);
    reflexivity.
Qed.

Lemma altitude_check_target (s s' : state) (t : Telemetry.TelemetryData) :
  target s' = target s -> altitude_check s' t = altitude_check s t.
Proof. unfold altitude_check. now intros ->. Qed.

(** The two ways [run] returns on a snapshot: from inside the altitude
    block, or after it with whatever the yaw block and the final return
    give. *)
Lemma run_cases (fuel : nat) (s s' : state) (t : Telemetry.TelemetryData) (e : effects) :
  run atan2 fuel s (Some t) = Some (s', e) ->
  s' = fst (update_velocity s t)
  /\ ((exists l r, altitude_check s t = Some ([altitude_command (target s)], l, r)
                   /\ e = ([altitude_command (target s)], snd (update_velocity s t) ++ l, r))
      \/ (altitude_check s t = None
          /\ exists cmds l r, yaw_check atan2 fuel s' t = Some (cmds, l, r)
                              /\ e = (cmds, snd (update_velocity s t) ++ l, r))).
Proof.
  unfold run.
  pose proof (altitude_check_target s _ t (update_velocity_target s t)) as Ha.
  destruct (update_velocity s t) as [s1 l1]. cbn [fst snd] in *. rewrite Ha.
  destruct (altitude_check s t) as [[[cmds l] r]|] eqn:Ealt.
  - intros H. injection H as <- <-. split; [reflexivity|]. left.
    unfold altitude_check in Ealt.
    destruct (Telemetry.z t); [|discriminate].
    destruct (HEIGHT_TOLERANCE <? abs (z (target s) - f))%float; [|discriminate].
    injection Ealt as <- <- <-. eauto.
  - destruct (yaw_check atan2 fuel s1 t) as [[[cmds l] r]|] eqn:Eyaw; [|discriminate].
    intros H. injection H as <- <-. split; [reflexivity|]. right.
    split; [reflexivity|]. eauto.
Qed.

(** What the yaw block sends: nothing, or one yaw command built from the
    normalised difference in degrees. *)
Lemma yaw_check_sent (fuel : nat) (s : state) (t : Telemetry.TelemetryData) (e : effects) :
  yaw_check atan2 fuel s t = Some e ->
  sent e = []
  \/ exists tx ty tyaw r,
       Telemetry.x t = Some tx /\ Telemetry.y t = Some ty /\ Telemetry.yaw t = Some tyaw
       /\ normalize fuel (atan2 (y (target s) - ty) (x (target s) - tx) - tyaw)%float = Some r
       /\ (ANGLE_TOLERANCE <? abs (degrees r))%float = true
       /\ sent e = [yaw_command (degrees r)].
Proof.
  unfold yaw_check.
  destruct (Telemetry.x t) as [tx|]; [|intros H; injection H as <-; now left].
  destruct (Telemetry.y t) as [ty|]; [|intros H; injection H as <-; now left].
  destruct (Telemetry.yaw t) as [tyaw|]; [|intros H; injection H as <-; now left].
  destruct (normalize fuel _) as [r|] eqn:En; [|discriminate].
  destruct (ANGLE_TOLERANCE <? abs (degrees r))%float eqn:Etol;
    intros H; injection H as <-; [right | now left].
  exists tx, ty, tyaw, r. now repeat split.
Qed.

Lemma normalize_down_exit (fuel : nat) :
  forall d r, normalize_down fuel d = Some r -> (pi <? r)%float = false.
Proof.
  induction fuel as [|fuel IH]; intros d r; cbn [normalize_down];
    destruct (pi <? d)%float eqn:E; try discriminate.
  - intros H. now injection H as <-.
  - apply IH.
  - intros H. now injection H as <-.
Qed.

Lemma normalize_up_exit (fuel : nat) :
  forall d r, normalize_up fuel d = Some r -> (r <? - pi)%float = false.
Proof.
  induction fuel as [|fuel IH]; intros d r; cbn [normalize_up];
    destruct (d <? - pi)%float eqn:E; try discriminate.
  - intros H. now injection H as <-.
  - apply IH.
  - intros H. now injection H as <-.
Qed.

(** The second loop never pushes the difference above [pi]. *)
Lemma normalize_up_below_pi (fuel : nat) :
  forall d r, (pi <? d)%float = false -> normalize_up fuel d = Some r ->
              (pi <? r)%float = false.
Proof.
  induction fuel as [|fuel IH]; intros d r Hd; cbn [normalize_up];
    destruct (d <? - pi)%float eqn:E; try discriminate.
  - intros H. now injection H as <-.
  - apply IH. now apply add_two_pi_not_above_pi.
  - intros H. now injection H as <-.
Qed.

Lemma normalize_range (fuel : nat) (d r : float) :
  normalize fuel d = Some r ->
  (pi <? r)%float = false /\ (r <? - pi)%float = false
  /\ (is_nan r = false -> (- pi <=? r)%float = true /\ (r <=? pi)%float = true).
Proof.
  unfold normalize. destruct (normalize_down fuel d) as [d1|] eqn:E1; [|discriminate].
  intros E2.
  pose proof (normalize_up_below_pi fuel d1 r (normalize_down_exit fuel d d1 E1) E2) as Hhi.
  pose proof (normalize_up_exit fuel d1 r E2) as Hlo.
  repeat split; try assumption.
  - now apply ltb_false_leb.
  - now apply ltb_false_leb.
Qed.

(** Subtracting [2 * pi] from 10^17 gives 10^17 back: the step is less
    than half the spacing of doubles there. *)
Lemma large_delta_absorbs : (large_delta - 2 * pi)%float = large_delta.
Proof. reflexivity. Qed.

Lemma large_delta_above_pi : (pi <? large_delta)%float = true.
Proof. reflexivity. Qed.

Lemma normalize_down_large_delta (fuel : nat) : normalize_down fuel large_delta = None.
Proof.
  induction fuel as [|fuel IH]; cbn [normalize_down]; rewrite large_delta_above_pi.
  - reflexivity.
  - rewrite large_delta_absorbs. exact IH.
Qed.

End CommandProperties.

Section CommandReturns.

Import Command.

(** When the altitude is out of tolerance, [run] returns from inside the
    altitude block: the expression on the right mentions neither [atan2],
    nor the fuel of the yaw loops, nor the x, y and yaw of the snapshot. *)
Lemma run_altitude (atan2 : float -> float -> float) (fuel : nat) (s : state)
  (t : Telemetry.TelemetryData) (tz : float) :
  Telemetry.z t = Some tz ->
  (HEIGHT_TOLERANCE <? abs (z (target s) - tz))%float = true ->
  run atan2 fuel s (Some t) =
    Some (fst (update_velocity s t),
          ([altitude_command (target s)],
           snd (update_velocity s t) ++ [InfoSentAltitude (z (target s) - tz)],
           (true, Some (CHANGE_ALTITUDE (z (target s) - tz))))).
Proof.
  intros Hz Htol. unfold run.
  pose proof (altitude_check_target s _ t (update_velocity_target s t)) as Ha.
  destruct (update_velocity s t) as [s1 l1]. cbn [fst snd] in *. rewrite Ha.
  unfold altitude_check. rewrite Hz, Htol. reflexivity.
Qed.

(** Every command that [run] sends when the altitude block does not return
    is a yaw command. *)
Lemma run_without_altitude (atan2 : float -> float -> float) (fuel : nat)
  (s s' : state) (t : Telemetry.TelemetryData) (e : effects) :
  altitude_check s t = None ->
  run atan2 fuel s (Some t) = Some (s', e) ->
  forall c, In c (sent e) -> command c = MAV_CMD_CONDITION_YAW.
Proof.
  intros Hnone Hrun c Hc.
  destruct (run_cases atan2 fuel s s' t e Hrun)
    as [_ [(l & r & Halt & _) | (_ & cmds & l & r & Hyaw & ->)]].
  - rewrite Hnone in Halt. discriminate.
  - destruct (yaw_check_sent atan2 fuel s' t _ Hyaw)
      as [Hs | (tx & ty & tyaw & d & _ & _ & _ & _ & _ & Hs)];
      unfold sent in Hs, Hc; cbn [fst] in Hs, Hc; rewrite Hs in Hc.
    + destruct Hc.
    + destruct Hc as [<- | []]. reflexivity.
Qed.

(** A call that does not return is inside the loops of the yaw block: the
    altitude block has not fired, and the yaw command is sent only after the
    loops. *)
Lemma run_stuck (atan2 : float -> float -> float) (fuel : nat) (s : state)
  (td : option Telemetry.TelemetryData) :
  run atan2 fuel s td = None ->
  exists t, td = Some t /\ altitude_check s t = None
            /\ yaw_check atan2 fuel (fst (update_velocity s t)) t = None.
Proof.
  destruct td as [t|]; [|discriminate]. unfold run.
  pose proof (altitude_check_target s _ t (update_velocity_target s t)) as Ha.
  destruct (update_velocity s t) as [s1 l1] eqn:Eu. cbn [fst snd] in *. rewrite Ha.
  destruct (altitude_check s t) as [[[cmds l] r]|] eqn:Ealt; [discriminate|].
  destruct (yaw_check atan2 fuel s1 t) as [[[cmds l] r]|] eqn:Eyaw; [discriminate|].
  intros _. exists t. rewrite Eu. now repeat split.
Qed.

Lemma run_sends_at_most_one (atan2 : float -> float -> float) (fuel : nat)
  (s s' : state) (td : option Telemetry.TelemetryData) (e : effects) :
  run atan2 fuel s td = Some (s', e) -> (List.length (sent e) <= 1)%nat.
Proof.
  destruct td as [t|].
  - intros Hrun.
    destruct (run_cases atan2 fuel s s' t e Hrun)
      as [_ [(l & r & _ & ->) | (_ & cmds & l & r & Hyaw & ->)]].
    + cbn. lia.
    + destruct (yaw_check_sent atan2 fuel s' t _ Hyaw)
        as [Hs | (tx & ty & tyaw & d & _ & _ & _ & _ & _ & Hs)];
        unfold sent in Hs |- *; cbn [fst] in Hs |- *; rewrite Hs; cbn; lia.
  - cbn. intros H. injection H as <- <-. cbn. lia.
Qed.

End CommandReturns.

(** ** Claims on Command *)

Section CommandClaims.

Import Command.

(** C1: whatever the snapshot, a call of [run] that returns has sent at most
    one command, and a call that does not return is inside the loops of the
    yaw block, before any send; and when the altitude difference exceeds its
    tolerance the call sends exactly the altitude command (command 113,
    rate 1 m/s in param1, the target altitude in param7) and returns at
    once, for any [atan2], any x, y and yaw, and even with no iteration
    allowed to the yaw loops: the yaw block is not evaluated. *)
Theorem C1_at_most_one_command_altitude_first :
  (forall atan2 fuel s td s' e,
      run atan2 fuel s td = Some (s', e) -> (List.length (sent e) <= 1)%nat)
  /\ (forall atan2 fuel s td,
        run atan2 fuel s td = None ->
        exists t, td = Some t /\ altitude_check s t = None
                  /\ yaw_check atan2 fuel (fst (update_velocity s t)) t = None)
  /\ (forall atan2 fuel s t tz,
        Telemetry.z t = Some tz ->
        (HEIGHT_TOLERANCE <? abs (z (target s) - tz))%float = true ->
        run atan2 fuel s (Some t) =
          Some (fst (update_velocity s t),
                ([{| target_system := 1; target_component := 0; command := 113;
                     confirmation := 0; param1 := 1; param2 := 0; param3 := 0;
                     param4 := 0; param5 := 0; param6 := 0; param7 := z (target s) |}],
                 snd (update_velocity s t) ++ [InfoSentAltitude (z (target s) - tz)],
                 (true, Some (CHANGE_ALTITUDE (z (target s) - tz)))))).
Proof.
  split; [|split].
  - intros atan2 fuel s td s' e. apply run_sends_at_most_one.
  - intros atan2 fuel s td. apply run_stuck.
  - intros atan2 fuel s t tz. exact (run_altitude atan2 fuel s t tz).
Qed.

(** C1 on a snapshot 2 m below the target and a quarter turn off it. *)
Lemma C1_at_most_one_command_altitude_first_witness :
  (HEIGHT_TOLERANCE <? abs (10 - 8))%float = true
  /\ (ANGLE_TOLERANCE <? abs (degrees (atan2_quarter_turn 10 0 - 0)))%float = true
  /\ run atan2_quarter_turn 0 (example_state (mkPosition 0 10 10))
         (Some (example_telemetry 0 0 (Some 8%float) 0))
     = Some (example_state (mkPosition 0 10 10),
             ([{| target_system := 1; target_component := 0; command := 113;
                  confirmation := 0; param1 := 1; param2 := 0; param3 := 0;
                  param4 := 0; param5 := 0; param6 := 0; param7 := 10 |}],
              [InfoSentAltitude 2],
              (true, Some (CHANGE_ALTITUDE 2)))).
Proof.
  split; [reflexivity|]. split; [reflexivity|].
  exact (proj2 (proj2 C1_at_most_one_command_altitude_first) atan2_quarter_turn 0%nat
           (example_state (mkPosition 0 10 10))
           (example_telemetry 0 0 (Some 8%float) 0) 8%float eq_refl eq_refl).
Defined.

(** C7: when the absolute altitude difference is exactly 0.5 the altitude
    block does not fire and no altitude command (command 113) is sent by the
    call; when it is 0.51 (the nearest double) the call sends exactly one
    command, the altitude command: command 113 with rate 1 m/s in param1 and
    the target altitude in param7. *)
Theorem C7_altitude_tolerance_is_strict :
  (forall atan2 fuel s t tz,
      Telemetry.z t = Some tz ->
      abs (z (target s) - tz) = HEIGHT_TOLERANCE ->
      altitude_check s t = None
      /\ forall s' e, run atan2 fuel s (Some t) = Some (s', e) ->
           forall c, In c (sent e) -> command c <> 113)
  /\ (forall atan2 fuel s t tz,
        Telemetry.z t = Some tz ->
        abs (z (target s) - tz) = just_above_tolerance ->
        exists s' l,
          run atan2 fuel s (Some t) =
            Some (s', ([{| target_system := 1; target_component := 0; command := 113;
                         confirmation := 0; param1 := 1; param2 := 0; param3 := 0;
                         param4 := 0; param5 := 0; param6 := 0; param7 := z (target s) |}], l,
                       (true, Some (CHANGE_ALTITUDE (z (target s) - tz)))))).
Proof.
  split.
  - intros atan2 fuel s t tz Hz Habs.
    assert (Hnone : altitude_check s t = None).
    { unfold altitude_check. rewrite Hz, Habs. reflexivity. }
    split; [exact Hnone|].
    intros s' e Hrun c Hc.
    rewrite (run_without_altitude atan2 fuel s s' t e Hnone Hrun c Hc).
    discriminate.
  - intros atan2 fuel s t tz Hz Habs.
    eexists. eexists. refine (run_altitude atan2 fuel s t tz Hz _).
    rewrite Habs. reflexivity.
Qed.

(** C7 at 10 - 9.5 = 0.5 and at 0.51 - 0 = 0.51. *)
Lemma C7_altitude_tolerance_is_strict_witness :
  altitude_check (example_state (mkPosition 0 0 10))
    (example_telemetry 0 0 (Some 9.5%float) 0) = None
  /\ exists s' l,
       run atan2_quarter_turn 0 (example_state (mkPosition 0 0 just_above_tolerance))
           (Some (example_telemetry 0 0 (Some 0%float) 0))
       = Some (s', ([{| target_system := 1; target_component := 0; command := 113;
                      confirmation := 0; param1 := 1; param2 := 0; param3 := 0;
                      param4 := 0; param5 := 0; param6 := 0; param7 := just_above_tolerance |}], l,
                    (true, Some (CHANGE_ALTITUDE (just_above_tolerance - 0))))).
Proof.
  split.
  - exact (proj1 (proj1 C7_altitude_tolerance_is_strict atan2_quarter_turn 0%nat
                   (example_state (mkPosition 0 0 10))
                   (example_telemetry 0 0 (Some 9.5%float) 0) 9.5%float eq_refl eq_refl)).
  - exact (proj2 C7_altitude_tolerance_is_strict atan2_quarter_turn 0%nat
             (example_state (mkPosition 0 0 just_above_tolerance))
             (example_telemetry 0 0 (Some 0%float) 0) 0%float eq_refl eq_refl).
Defined.

End CommandClaims.

Section YawReturns.

Import Command.

(** When the altitude block does not return and the normalised difference
    is out of tolerance, [run] returns from inside the yaw block with the
    yaw command for that difference sent. *)
Lemma run_yaw (atan2 : float -> float -> float) (fuel : nat) (s : state)
  (t : Telemetry.TelemetryData) (tx ty tyaw r : float) :
  Telemetry.x t = Some tx -> Telemetry.y t = Some ty -> Telemetry.yaw t = Some tyaw ->
  altitude_check s t = None ->
  normalize fuel (atan2 (y (target s) - ty) (x (target s) - tx) - tyaw)%float = Some r ->
  (ANGLE_TOLERANCE <? abs (degrees r))%float = true ->
  run atan2 fuel s (Some t) =
    Some (fst (update_velocity s t),
          ([yaw_command (degrees r)],
           snd (update_velocity s t) ++ [InfoSentYaw (degrees r)],
           (true, Some (CHANGE_YAW (degrees r))))).
Proof.
  intros Hx Hy Hw Halt Hn Htol. unfold run.
  pose proof (update_velocity_target s t) as Ht.
  pose proof (altitude_check_target s _ t Ht) as Ha.
  destruct (update_velocity s t) as [s1 l1]. cbn [fst snd] in *.
  rewrite Ha, Halt. unfold yaw_check. rewrite Hx, Hy, Hw, Ht, Hn, Htol. reflexivity.
Qed.

(** A raw difference of 200 degrees: one subtraction, whatever the fuel. *)
Lemma normalize_two_hundred (fuel : nat) :
  normalize (S fuel) (radians 200) = Some (radians 200 - 2 * pi)%float.
Proof.
  assert (H1 : (pi <? radians 200)%float = true) by reflexivity.
  assert (H2 : (pi <? radians 200 - 2 * pi)%float = false) by reflexivity.
  assert (H3 : (radians 200 - 2 * pi <? - pi)%float = false) by reflexivity.
  unfold normalize. cbn [normalize_down]. rewrite H1.
  destruct fuel; cbn [normalize_down normalize_up]; rewrite H2, H3; reflexivity.
Qed.

End YawReturns.

Section YawClaims.

Import Command.

(** C4, as stated, fails: a difference of exactly [-pi] is left as it is
    by both loops, and [-pi] is not in the half-open interval (-pi, pi]. *)
Lemma C4_half_open_interval_fails :
  ~ (forall (fuel : nat) (d r : float),
       normalize fuel d = Some r ->
       (- pi <? r)%float = true /\ (r <=? pi)%float = true).
Proof.
  intros H.
  destruct (H 0%nat (- pi)%float (- pi)%float eq_refl) as [Hlow _].
  vm_compute in Hlow. discriminate.
Qed.

(** C4, amended: whenever the two loops end, the difference they leave is
    neither above [pi] nor below [-pi], and unless it is a NaN it lies in the
    closed interval from [-pi] to [pi].  A raw difference of 200 degrees is
    normalised in one subtraction to -160 degrees, and a call of [run] whose
    altitude block does not return then sends exactly one command, the yaw
    command (command 115) with magnitude 160, turning speed 5, direction -1
    and the relative flag 1.  In general, when the normalised difference in
    degrees [delta_yaw_deg] is out of tolerance the call sends exactly the
    yaw command with magnitude [abs delta_yaw_deg] and direction 1 when
    [delta_yaw_deg >= 0], -1 otherwise; and any command the yaw block sends
    is of that form. *)
Theorem C4_yaw_normalized_into_closed_interval :
  (forall (fuel : nat) (d r : float),
      normalize fuel d = Some r ->
      (pi <? r)%float = false /\ (r <? - pi)%float = false
      /\ (is_nan r = false -> (- pi <=? r)%float = true /\ (r <=? pi)%float = true))
  /\ (normalize 1 (radians 200) = Some (radians 200 - 2 * pi)%float
      /\ degrees (radians 200 - 2 * pi) = (-160)%float
      /\ (ANGLE_TOLERANCE <? abs (-160))%float = true
      /\ param1 (yaw_command (-160)) = 160%float
      /\ param3 (yaw_command (-160)) = (-1)%float)
  /\ (forall atan2 fuel s t tx ty tyaw,
        Telemetry.x t = Some tx -> Telemetry.y t = Some ty ->
        Telemetry.yaw t = Some tyaw ->
        altitude_check s t = None ->
        (atan2 (y (target s) - ty) (x (target s) - tx) - tyaw)%float = radians 200 ->
        run atan2 (S fuel) s (Some t) =
          Some (fst (update_velocity s t),
                ([{| target_system := 1; target_component := 0; command := 115;
                     confirmation := 0; param1 := 160; param2 := 5;
                     param3 := -1;
                     param4 := 1; param5 := 0; param6 := 0; param7 := 0 |}],
                 snd (update_velocity s t) ++ [InfoSentYaw (-160)],
                 (true, Some (CHANGE_YAW (-160))))))
  /\ (forall atan2 fuel s t tx ty tyaw r,
        Telemetry.x t = Some tx -> Telemetry.y t = Some ty ->
        Telemetry.yaw t = Some tyaw ->
        altitude_check s t = None ->
        normalize fuel (atan2 (y (target s) - ty) (x (target s) - tx) - tyaw)%float
        = Some r ->
        (5 <? abs (degrees r))%float = true ->
        run atan2 fuel s (Some t) =
          Some (fst (update_velocity s t),
                ([{| target_system := 1; target_component := 0; command := 115;
                     confirmation := 0; param1 := abs (degrees r); param2 := 5;
                     param3 := if (0 <=? degrees r)%float then 1 else -1;
                     param4 := 1; param5 := 0; param6 := 0; param7 := 0 |}],
                 snd (update_velocity s t) ++ [InfoSentYaw (degrees r)],
                 (true, Some (CHANGE_YAW (degrees r))))))
  /\ (forall atan2 fuel s t e c,
        yaw_check atan2 fuel s t = Some e ->
        In c (sent e) ->
        exists tx ty tyaw r,
          Telemetry.x t = Some tx /\ Telemetry.y t = Some ty
          /\ Telemetry.yaw t = Some tyaw
          /\ normalize fuel (atan2 (y (target s) - ty) (x (target s) - tx) - tyaw)%float
             = Some r
          /\ command c = 115
          /\ param1 c = abs (degrees r)
          /\ param2 c = 5%float
          /\ param3 c = (if (0 <=? degrees r)%float then 1 else -1)%float
          /\ param4 c = 1%float).
Proof.
  split; [|split; [|split; [|split]]].
  - intros fuel d r. apply normalize_range.
  - repeat split; reflexivity.
  - intros atan2 fuel s t tx ty tyaw Hx Hy Hw Halt Hd.
    refine (run_yaw atan2 (S fuel) s t tx ty tyaw (radians 200 - 2 * pi)%float
              Hx Hy Hw Halt _ eq_refl).
    rewrite Hd. apply normalize_two_hundred.
  - intros atan2 fuel s t tx ty tyaw r Hx Hy Hw Halt Hn Htol.
    exact (run_yaw atan2 fuel s t tx ty tyaw r Hx Hy Hw Halt Hn Htol).
  - intros atan2 fuel s t e c Hyaw Hc.
    destruct (yaw_check_sent atan2 fuel s t e Hyaw)
      as [Hs | (tx & ty & tyaw & r & Hx & Hy & Hw & Hn & _ & Hs)];
      rewrite Hs in Hc.
    + destruct Hc.
    + destruct Hc as [<- | []]. exists tx, ty, tyaw, r. now repeat split.
Qed.

(** C4 on a snapshot with no altitude, a bearing of 100 degrees and a yaw
    of -100 degrees: the raw difference is 200 degrees. *)
Lemma C4_yaw_normalized_into_closed_interval_witness :
  (radians 100 - radians (-100))%float = radians 200
  /\ run (fun _ _ => radians 100) 1 (example_state (mkPosition 0 10 10))
         (Some (example_telemetry 0 0 None (radians (-100))))
     = Some (example_state (mkPosition 0 10 10),
             ([{| target_system := 1; target_component := 0; command := 115;
                  confirmation := 0; param1 := 160; param2 := 5;
                  param3 := -1;
                  param4 := 1; param5 := 0; param6 := 0; param7 := 0 |}],
              [InfoSentYaw (-160)],
              (true, Some (CHANGE_YAW (-160))))).
Proof.
  split; [reflexivity|].
  exact (proj1 (proj2 (proj2 C4_yaw_normalized_into_closed_interval))
           (fun _ _ => radians 100) 0%nat (example_state (mkPosition 0 10 10))
           (example_telemetry 0 0 None (radians (-100)))
           0%float 0%float (radians (-100)) eq_refl eq_refl eq_refl eq_refl eq_refl).
Defined.

(** C10 fails on the code: at a raw difference of 10^17 radians the first
    loop never ends, because [delta_yaw -= 2 * math.pi] leaves such a double
    unchanged.  No amount of iterations makes the loops, or a call of [run]
    on a snapshot with yaw -10^17 at the target's x and y, return. *)
Theorem C10_normalization_never_ends_on_large_delta :
  forall fuel : nat,
    normalize fuel large_delta = None
    /\ forall atan2 : float -> float -> float,
         atan2 0%float 0%float = 0%float ->
         run atan2 fuel (example_state (mkPosition 0 0 10))
             (Some (example_telemetry 0 0 None (- large_delta))) = None.
Proof.
  intros fuel.
  assert (Hn : normalize fuel large_delta = None).
  { unfold normalize. now rewrite normalize_down_large_delta. }
  split; [exact Hn|].
  intros atan2 Hatan. cbn -[normalize large_delta].
  change (0 - 0)%float with 0%float. rewrite Hatan.
  change (0 - - large_delta)%float with large_delta.
  rewrite Hn. reflexivity.
Qed.

End YawClaims.

(** * Properties of command_worker *)

Section WorkerProperties.

Import CommandWorker.

Variable atan2 : float -> float -> float.

(** What is behind the first sentinel of the input queue is still on the
    queue when the loop returns, and nothing else of the outcome depends on
    it. *)
Lemma main_loop_ignores_after_sentinel (fuel : nat) (exits : list bool) :
  forall s pre post cmds out lg o,
    main_loop atan2 fuel exits s (pre ++ None :: post) cmds out lg = Some o ->
    exists left,
      input_queue o = left ++ post
      /\ forall post',
           main_loop atan2 fuel exits s (pre ++ None :: post') cmds out lg
           = Some (with_input_queue o (left ++ post')).
Proof.
  induction exits as [|[|] exits IH]; intros s pre post cmds out lg o Hrun;
    cbn [main_loop] in Hrun.
  - discriminate.
  - injection Hrun as <-. exists (pre ++ [None]). cbn [input_queue]. split.
    + now rewrite <- app_assoc.
    + intros post'. cbn [main_loop]. unfold with_input_queue. cbn.
      now rewrite <- app_assoc.
  - destruct pre as [|[t|] pre]; cbn [app] in Hrun.
    + injection Hrun as <-. exists []. split; [reflexivity|].
      intros post'. reflexivity.
    + destruct (Command.run atan2 fuel s (Some t)) as [[s' [[c l] r]]|] eqn:Erun;
        [|discriminate].
      destruct (put_status r) as [put l'] eqn:Eput.
      destruct (IH _ _ _ _ _ _ _ Hrun) as (left & Hq & Hpost).
      exists left. split; [exact Hq|].
      intros post'. cbn [main_loop app]. rewrite Erun, Eput. apply Hpost.
    + injection Hrun as <-. exists (pre ++ [None]). cbn [input_queue]. split.
      * now rewrite <- app_assoc.
      * intros post'. cbn [main_loop app]. unfold with_input_queue. cbn.
        now rewrite <- app_assoc.
Qed.

End WorkerProperties.

(** ** Claim on command_worker *)

Section WorkerClaims.

Import CommandWorker.

(** C9: when the loop is about to dequeue and the sentinel is at the head of
    the queue, the loop returns there and then, with what follows the
    sentinel left on the queue and nothing more sent or put.  For the whole
    worker: whatever follows the first sentinel of the input queue is still
    on the queue when the worker returns, and the commands sent, the
    statuses put and the final attributes do not depend on it. *)
Theorem C9_sentinel_stops_worker :
  forall (atan2 : float -> float -> float) (fuel : nat) (connection_given : bool)
         (target : option Command.Position) (exits : list bool)
         (pre post : list (option Telemetry.TelemetryData)) (o : output),
    command_worker atan2 fuel connection_given target exits (pre ++ None :: post) = Some o ->
    (forall s exits' cmds out lg,
        main_loop atan2 fuel (false :: exits') s (None :: post) cmds out lg
        = Some {| final := Some s; commands := cmds; output_queue := out;
                  logs := lg ++ [InfoSentinel; InfoExiting]; input_queue := post |})
    /\ exists left,
         input_queue o = left ++ post
         /\ forall post',
              command_worker atan2 fuel connection_given target exits (pre ++ None :: post')
              = Some (with_input_queue o (left ++ post')).
Proof.
  intros atan2 fuel connection_given target exits pre post o Hrun.
  split; [reflexivity|].
  unfold command_worker in *.
  destruct (Command.create connection_given target true) as [[|] [c|]].
  - exact (main_loop_ignores_after_sentinel atan2 fuel exits _ _ _ _ _ _ _ Hrun).
  - injection Hrun as <-. exists (pre ++ [None]). cbn. split.
    + now rewrite <- app_assoc.
    + intros post'. now rewrite <- app_assoc.
  - injection Hrun as <-. exists (pre ++ [None]). cbn. split.
    + now rewrite <- app_assoc.
    + intros post'. now rewrite <- app_assoc.
  - injection Hrun as <-. exists (pre ++ [None]). cbn. split.
    + now rewrite <- app_assoc.
    + intros post'. now rewrite <- app_assoc.
Qed.

Lemma C9_sentinel_stops_worker_witness :
  command_worker Command.atan2_quarter_turn 0 true (Some example_target)
    [false; false; false] ([Some example_first] ++ None :: [Some example_behind])
  = Some example_output
  /\ (forall s exits' cmds out lg,
        main_loop Command.atan2_quarter_turn 0 (false :: exits') s
          (None :: [Some example_behind]) cmds out lg
        = Some {| final := Some s; commands := cmds; output_queue := out;
                  logs := lg ++ [InfoSentinel; InfoExiting];
                  input_queue := [Some example_behind] |})
  /\ exists left,
       input_queue example_output = left ++ [Some example_behind]
       /\ forall post',
            command_worker Command.atan2_quarter_turn 0 true (Some example_target)
              [false; false; false] ([Some example_first] ++ None :: post')
            = Some (with_input_queue example_output (left ++ post')).
Proof.
  assert (H : command_worker Command.atan2_quarter_turn 0 true (Some example_target)
                [false; false; false]
                ([Some example_first] ++ None :: [Some example_behind])
              = Some example_output) by (vm_compute; reflexivity).
  split; [exact H|].
  exact (C9_sentinel_stops_worker Command.atan2_quarter_turn 0%nat true
           (Some example_target) [false; false; false] [Some example_first]
           [Some example_behind] example_output H).
Defined.

End WorkerClaims.

(** * Further properties of HeartbeatReceiver and its worker *)

Section HeartbeatWindow.

Import HeartbeatReceiver HeartbeatReceiverWorker.

Lemma trailing_misses_snoc (rs : list recv_result) (r : recv_result) :
  trailing_misses (rs ++ [r]) = if is_heartbeat r then O else S (trailing_misses rs).
Proof. unfold trailing_misses. rewrite rev_app_distr. reflexivity. Qed.

(** The two attributes after any sequence of calls, in terms of the results
    received. *)
Lemma run_all_trailing (rs : list recv_result) :
  missed_heartbeats (run_all rs) = Z.of_nat (trailing_misses rs)
  /\ is_connected (run_all rs) =
       ever_received rs && (Z.of_nat (trailing_misses rs) <? DISCONNECT_THRESHOLD).
Proof.
  induction rs as [|r rs [IHm IHc]] using rev_ind.
  - split; reflexivity.
  - rewrite run_all_snoc, ever_received_snoc, trailing_misses_snoc.
    destruct (is_heartbeat r) eqn:Hr.
    + rewrite (run_state_heartbeat _ _ Hr), orb_true_r. split; reflexivity.
    + rewrite (run_state_miss _ _ Hr), orb_false_r. cbn [missed_heartbeats is_connected].
      rewrite IHm, IHc, Nat2Z.inj_succ. split; [lia|].
      unfold DISCONNECT_THRESHOLD.
      destruct (ever_received rs); cbn [andb];
        repeat match goal with
               | |- context [?a <=? ?b] => destruct (Z.leb_spec a b)
               | |- context [?a <? ?b] => destruct (Z.ltb_spec a b)
               end; try reflexivity; lia.
Qed.

(** A heartbeat among the first [n] of a list: there is one at all, and
    fewer than [n] misses come before the first. *)
Lemma existsb_firstn_leading (n : nat) :
  forall l : list recv_result,
    existsb is_heartbeat (firstn n l) = existsb is_heartbeat l && (leading_misses l <? n)%nat.
Proof.
  induction n as [|n IH]; intros [|r l]; cbn [firstn existsb leading_misses]; try reflexivity.
  - now rewrite andb_false_r.
  - destruct (is_heartbeat r); cbn [orb]; [reflexivity|]. rewrite IH.
    reflexivity.
Qed.

Lemma statuses_app (rs1 rs2 : list recv_result) :
  forall s, statuses s (rs1 ++ rs2) = statuses s rs1 ++ statuses (run_from s rs1) rs2.
Proof.
  induction rs1 as [|r rs1 IH]; intros s; cbn [statuses app]; [reflexivity|].
  rewrite IH. reflexivity.
Qed.

Lemma statuses_length (rs : list recv_result) :
  forall s, List.length (statuses s rs) = List.length rs.
Proof. induction rs as [|r rs IH]; intros s; cbn; [reflexivity | now rewrite IH]. Qed.

(** The loop, when the controller ends it after [iterations exits] rounds
    and the link has a result for each round. *)
Lemma receiver_main_loop_returns (exits : list bool) :
  forall s recvs out lg,
    In true exits ->
    (iterations exits <= List.length recvs)%nat ->
    exists l,
      main_loop exits s recvs out lg
      = Some (Returned {| final := Some (run_from s (firstn (iterations exits) recvs));
                          output_queue := out ++ statuses s (firstn (iterations exits) recvs);
                          logs := l |}).
Proof.
  induction exits as [|[|] exits IH]; intros s recvs out lg Hin Hlen.
  - destruct Hin.
  - cbn. rewrite app_nil_r. eexists. reflexivity.
  - destruct Hin as [Hin|Hin]; [discriminate|].
    cbn [iterations] in *. destruct recvs as [|r recvs]; [cbn in Hlen; lia|].
    cbn [main_loop firstn statuses]. cbn in Hlen.
    change (run_from s (r :: firstn (iterations exits) recvs))
      with (run_from (run_state s r) (firstn (iterations exits) recvs)).
    pose proof (run_result_status s r) as Hres. unfold run_result, run_state in *.
    destruct (run s r) as [[s' l] res]. cbn [fst snd] in *. subst res.
    destruct (IH s' recvs (out ++ [status_string s'])
                 (lg ++ map FromReceiver l ++ [InfoConnectionStatus (status_string s')])
                 Hin ltac:(lia)) as [l' Hl'].
    rewrite Hl'. rewrite <- app_assoc. cbn [app]. eexists. reflexivity.
Qed.

Lemma existsb_rev {A : Type} (f : A -> bool) (l : list A) :
  existsb f (rev l) = existsb f l.
Proof.
  induction l as [|a l IH]; [reflexivity|].
  cbn [rev existsb]. rewrite existsb_app, IH. cbn [existsb].
  now rewrite orb_false_r, orb_comm.
Qed.

End HeartbeatWindow.

Section HeartbeatExtras.

Import HeartbeatReceiver HeartbeatReceiverWorker.

(** X1: after any sequence of calls since construction the receiver is
    Connected exactly when one of the last DISCONNECT_THRESHOLD results of
    [recv_match] was a heartbeat. *)
Theorem X1_connected_iff_recent_heartbeat :
  forall rs : list recv_result,
    is_connected (run_all rs) = existsb is_heartbeat (recent rs).
Proof.
  intros rs. destruct (run_all_trailing rs) as [_ ->].
  unfold recent, trailing_misses, ever_received.
  rewrite existsb_firstn_leading, existsb_rev. f_equal.
  unfold DISCONNECT_THRESHOLD.
  destruct (Z.ltb_spec (Z.of_nat (leading_misses (rev rs))) 5);
    destruct (Nat.ltb_spec (leading_misses (rev rs)) (Z.to_nat 5)); try reflexivity; lia.
Qed.

(** X2: the counter of missed heartbeats is the number of calls since the
    last one that received a heartbeat (since construction if none did); it
    is not capped at the threshold. *)
Theorem X2_counter_is_misses_since_last_heartbeat :
  (forall rs, missed_heartbeats (run_all rs) = Z.of_nat (trailing_misses rs))
  /\ (forall pre r misses,
        is_heartbeat r = true -> all_missed misses = true ->
        missed_heartbeats (run_all (pre ++ r :: misses)) = Z.of_nat (List.length misses))
  /\ (forall misses,
        all_missed misses = true ->
        missed_heartbeats (run_all misses) = Z.of_nat (List.length misses)).
Proof.
  split; [|split].
  - intros rs. exact (proj1 (run_all_trailing rs)).
  - intros pre r misses Hr Hm. unfold run_all.
    change (pre ++ r :: misses) with (pre ++ [r] ++ misses).
    rewrite app_assoc, run_from_app.
    destruct (run_from_all_missed misses (run_from init (pre ++ [r])) Hm) as [-> _].
    rewrite run_from_app. cbn [run_from fold_left].
    rewrite (run_state_heartbeat _ _ Hr). reflexivity.
  - intros misses Hm. unfold run_all.
    destruct (run_from_all_missed misses init Hm) as [-> _]. reflexivity.
Qed.

Lemma X2_counter_is_misses_since_last_heartbeat_witness :
  missed_heartbeats
    (run_all ([RecvNone] ++ RecvMsg "HEARTBEAT"
              :: [RecvNone; RecvNone; RecvRaise "down"; RecvNone; RecvNone; RecvNone; RecvNone]))
  = 7.
Proof.
  exact (proj1 (proj2 X2_counter_is_misses_since_last_heartbeat) [RecvNone]
           (RecvMsg "HEARTBEAT")
           [RecvNone; RecvNone; RecvRaise "down"; RecvNone; RecvNone; RecvNone; RecvNone]
           eq_refl eq_refl).
Defined.

(** X3: when the controller ends the loop after [n] rounds and the link
    answers each round, the receiver worker returns (it never raises), has
    put exactly one status per round on the output queue, in order, each the
    status after that round, and leaves the receiver in the state after the
    [n] results. *)
Theorem X3_receiver_worker_one_status_per_round :
  forall (exits : list bool) (recvs : list recv_result),
    In true exits ->
    (iterations exits <= List.length recvs)%nat ->
    exists o,
      heartbeat_receiver_worker true exits recvs = Some (Returned o)
      /\ final o = Some (run_all (firstn (iterations exits) recvs))
      /\ output_queue o = statuses init (firstn (iterations exits) recvs)
      /\ List.length (output_queue o) = iterations exits.
Proof.
  intros exits recvs Hin Hlen. unfold heartbeat_receiver_worker. cbn [create negb].
  destruct (receiver_main_loop_returns exits init recvs []
              [InfoLoggerInitialized; InfoCreated] Hin Hlen) as [l Hl].
  rewrite Hl. eexists. split; [reflexivity|]. cbn [final output_queue app].
  repeat split. rewrite statuses_length, length_firstn. lia.
Qed.

Lemma X3_receiver_worker_one_status_per_round_witness :
  exists o,
    heartbeat_receiver_worker true [false; false; false; true]
      [RecvNone; RecvMsg "HEARTBEAT"; RecvRaise "down"; RecvNone] = Some (Returned o)
    /\ final o = Some (run_all (firstn 3 [RecvNone; RecvMsg "HEARTBEAT"; RecvRaise "down"; RecvNone]))
    /\ output_queue o
       = statuses init (firstn 3 [RecvNone; RecvMsg "HEARTBEAT"; RecvRaise "down"; RecvNone])
    /\ List.length (output_queue o) = 3%nat.
Proof.
  apply (X3_receiver_worker_one_status_per_round [false; false; false; true]
           [RecvNone; RecvMsg "HEARTBEAT"; RecvRaise "down"; RecvNone]).
  - cbn. tauto.
  - cbn. lia.
Defined.

End HeartbeatExtras.

(** * Properties of heartbeat_sender_worker *)

Section SenderWorkerProperties.

Import HeartbeatSenderWorker.

(** The loop, entered at round number [k] with the deadline of that round,
    when the controller ends it after [iterations exits] more rounds and
    the scripts of the clock and of the sends reach that far. *)
Lemma sender_main_loop_returns (start_time : float) (exits : list bool) :
  forall k clk sends att sl lg,
    In true exits ->
    (iterations exits <= List.length clk)%nat ->
    (iterations exits <= List.length sends)%nat ->
    main_loop exits (deadline start_time k) clk sends att sl lg
    = Some {| attempts := att ++ repeat the_heartbeat (iterations exits);
              sleeps := sl ++ planned_sleeps start_time k (firstn (iterations exits) clk);
              logs := lg ++ map send_log (firstn (iterations exits) sends)
                         ++ [InfoExiting] |}.
Proof.
  induction exits as [|[|] exits IH]; intros k clk sends att sl lg Hin Hclk Hsends.
  - destruct Hin.
  - cbn. now rewrite !app_nil_r.
  - destruct Hin as [Hin|Hin]; [discriminate|].
    cbn [iterations] in *.
    destruct clk as [|now clk]; [cbn in Hclk; lia|].
    destruct sends as [|r sends]; [cbn in Hsends; lia|].
    cbn in Hclk, Hsends.
    cbn [main_loop firstn planned_sleeps repeat map].
    change (fst (schedule (deadline start_time k) now)) with (deadline start_time (S k)).
    unfold planned_sleep, send_log.
    destruct (HeartbeatSender.run r) as [msg result] eqn:Erun.
    assert (Hmsg : msg = the_heartbeat) by (destruct r; injection Erun as <- _; reflexivity).
    subst msg.
    destruct (schedule (deadline start_time k) now) as [next s] eqn:Esch.
    assert (Hnext : next = deadline start_time (S k)).
    { unfold schedule in Esch. injection Esch as <- _. reflexivity. }
    subst next.
    rewrite (IH (S k) clk sends _ _ _ Hin ltac:(lia) ltac:(lia)).
    cbn [snd]. rewrite <- !app_assoc. reflexivity.
Qed.

Lemma planned_sleeps_positive (start_time : float) (nows : list float) :
  forall k t, In (Some t) (planned_sleeps start_time k nows) -> (0 <? t)%float = true.
Proof.
  induction nows as [|now nows IH]; intros k t Hin; [destruct Hin|].
  cbn [planned_sleeps] in Hin. destruct Hin as [Hin|Hin]; [|exact (IH _ _ Hin)].
  unfold planned_sleep, schedule in Hin. cbn [snd] in Hin.
  destruct (0 <? deadline start_time k + HEARTBEAT_PERIOD - now)%float eqn:E;
    [|discriminate].
  now injection Hin as <-.
Qed.

(** The sleep of each round, written out: the wake-up time is the start
    time plus one period per round so far, the sleep is what is left until
    then at the clock reading of the round, and there is none when nothing
    is left. *)
Lemma planned_sleeps_nth (start_time : float) (nows : list float) :
  forall j k now,
    nth_error nows k = Some now ->
    nth_error (planned_sleeps start_time j nows) k
    = Some (let wake := Nat.iter (S (j + k)) (fun t => (t + 1)%float) start_time in
            if (0 <? wake - now)%float then Some (wake - now)%float else None).
Proof.
  induction nows as [|n nows IH]; intros j [|k] now Hnow; try discriminate.
  - cbn in Hnow. injection Hnow as ->. rewrite Nat.add_0_r. reflexivity.
  - cbn [nth_error planned_sleeps] in *. rewrite (IH (S j) k now Hnow).
    now rewrite Nat.add_succ_r.
Qed.

Lemma planned_sleeps_length (start_time : float) (nows : list float) :
  forall j, List.length (planned_sleeps start_time j nows) = List.length nows.
Proof. induction nows as [|n nows IH]; intros j; cbn; [reflexivity | now rewrite IH]. Qed.

End SenderWorkerProperties.

Section SenderWorkerExtras.

Import HeartbeatSenderWorker.

(** X4: the sender worker keeps its schedule anchored to the time read at
    the start: in round [k] (from 0) the wake-up time is the start time plus
    [k + 1] periods of one second, added one at a time; the worker asks to
    sleep for what is left until then at the clock reading of that round,
    and does not sleep when nothing is left.  So a round that ran late does
    not push the later wake-up times, the sleeps do not depend on what the
    sends did, and a sleep that is asked for is positive. *)
Theorem X4_sender_schedule_anchored_to_start :
  forall (exits : list bool) (start_time : float) (clk : list float)
         (sends : list HeartbeatSender.send_result),
    In true exits ->
    (iterations exits <= List.length clk)%nat ->
    (iterations exits <= List.length sends)%nat ->
    exists o,
      heartbeat_sender_worker true exits (start_time :: clk) sends = Some o
      /\ List.length (sleeps o) = iterations exits
      /\ (forall k now,
            (k < iterations exits)%nat ->
            nth_error clk k = Some now ->
            nth_error (sleeps o) k
            = Some (let wake := Nat.iter (S k) (fun t => (t + 1)%float) start_time in
                    if (0 <? wake - now)%float then Some (wake - now)%float else None))
      /\ (forall t, In (Some t) (sleeps o) -> (0 <? t)%float = true)
      /\ (forall sends', (iterations exits <= List.length sends')%nat ->
            exists o', heartbeat_sender_worker true exits (start_time :: clk) sends' = Some o'
                       /\ sleeps o' = sleeps o).
Proof.
  intros exits start_time clk sends Hin Hclk Hsends.
  unfold heartbeat_sender_worker. cbn [HeartbeatSender.create negb].
  change start_time with (deadline start_time 0) at 1.
  rewrite (sender_main_loop_returns start_time exits 0 clk sends _ _ _ Hin Hclk Hsends).
  eexists. split; [reflexivity|]. cbn [sleeps app]. split; [|split; [|split]].
  - rewrite planned_sleeps_length, length_firstn. lia.
  - intros k now Hk Hnow.
    apply (planned_sleeps_nth start_time _ 0 k now).
    rewrite nth_error_firstn. apply Nat.ltb_lt in Hk. now rewrite Hk.
  - intros t. apply planned_sleeps_positive.
  - intros sends' Hsends'.
    change start_time with (deadline start_time 0) at 1.
    rewrite (sender_main_loop_returns start_time exits 0 clk sends' _ _ _ Hin Hclk Hsends').
    eexists. split; reflexivity.
Qed.

(** Three rounds: 0.75 s early, late by half a second (no sleep, and the
    next wake-up time is not pushed), then 0.25 s early. *)
Lemma X4_sender_schedule_anchored_to_start_witness :
  (exists o,
     heartbeat_sender_worker true [false; false; false; true]
       (100%float :: [100.25; 102.5; 102.75]%float)
       [HeartbeatSender.SendOk; HeartbeatSender.SendRaise "down"; HeartbeatSender.SendOk]
     = Some o
     /\ sleeps o = [Some 0.75%float; None; Some 0.25%float])
  /\ exists o,
    heartbeat_sender_worker true [false; false; false; true]
      (100%float :: [100.25; 102.5; 102.75]%float)
      [HeartbeatSender.SendOk; HeartbeatSender.SendRaise "down"; HeartbeatSender.SendOk]
    = Some o
    /\ List.length (sleeps o) = 3%nat
    /\ (forall k now,
          (k < 3)%nat ->
          nth_error [100.25; 102.5; 102.75]%float k = Some now ->
          nth_error (sleeps o) k
          = Some (let wake := Nat.iter (S k) (fun t => (t + 1)%float) 100%float in
                  if (0 <? wake - now)%float then Some (wake - now)%float else None))
    /\ (forall t, In (Some t) (sleeps o) -> (0 <? t)%float = true)
    /\ (forall sends', (3 <= List.length sends')%nat ->
          exists o', heartbeat_sender_worker true [false; false; false; true]
                       (100%float :: [100.25; 102.5; 102.75]%float) sends' = Some o'
                     /\ sleeps o' = sleeps o).
Proof.
  split; [eexists; split; vm_compute; reflexivity|].
  apply (X4_sender_schedule_anchored_to_start [false; false; false; true] 100%float
           [100.25; 102.5; 102.75]%float
           [HeartbeatSender.SendOk; HeartbeatSender.SendRaise "down"; HeartbeatSender.SendOk]).
  - cbn. tauto.
  - cbn. lia.
  - cbn. lia.
Defined.

(** X5: the sender worker makes exactly one send attempt per round, always
    of the heartbeat (MAV_TYPE_GCS, MAV_AUTOPILOT_INVALID, 0, 0, 0); a send
    that raises is logged as an error and the loop goes on with the next
    round. *)
Theorem X5_sender_one_attempt_per_round :
  forall (exits : list bool) (start_time : float) (clk : list float)
         (sends : list HeartbeatSender.send_result),
    In true exits ->
    (iterations exits <= List.length clk)%nat ->
    (iterations exits <= List.length sends)%nat ->
    exists o,
      heartbeat_sender_worker true exits (start_time :: clk) sends = Some o
      /\ attempts o
         = repeat {| HeartbeatSender.hb_type := HeartbeatSender.MAV_TYPE_GCS;
                     HeartbeatSender.autopilot := HeartbeatSender.MAV_AUTOPILOT_INVALID;
                     HeartbeatSender.base_mode := 0;
                     HeartbeatSender.custom_mode := 0;
                     HeartbeatSender.system_status := 0 |} (iterations exits)
      /\ logs o
         = [InfoLoggerInitialized; InfoCreated]
             ++ map (fun r => match r with
                              | HeartbeatSender.SendOk => InfoHeartbeatSent
                              | HeartbeatSender.SendRaise _ => ErrorFailedToSend
                              end) (firstn (iterations exits) sends)
             ++ [InfoExiting].
Proof.
  intros exits start_time clk sends Hin Hclk Hsends.
  unfold heartbeat_sender_worker. cbn [HeartbeatSender.create negb].
  change start_time with (deadline start_time 0) at 1.
  rewrite (sender_main_loop_returns start_time exits 0 clk sends _ _ _ Hin Hclk Hsends).
  eexists. split; [reflexivity|]. cbn [attempts logs app]. split; [reflexivity|].
  do 2 f_equal. f_equal. apply map_ext. intros [|e]; reflexivity.
Qed.

Lemma X5_sender_one_attempt_per_round_witness :
  exists o,
    heartbeat_sender_worker true [false; false; true]
      (100%float :: [100.25; 101.25]%float)
      [HeartbeatSender.SendRaise "down"; HeartbeatSender.SendOk] = Some o
    /\ attempts o
       = repeat {| HeartbeatSender.hb_type := HeartbeatSender.MAV_TYPE_GCS;
                   HeartbeatSender.autopilot := HeartbeatSender.MAV_AUTOPILOT_INVALID;
                   HeartbeatSender.base_mode := 0;
                   HeartbeatSender.custom_mode := 0;
                   HeartbeatSender.system_status := 0 |} 2
    /\ logs o
       = [InfoLoggerInitialized; InfoCreated]
           ++ map (fun r => match r with
                            | HeartbeatSender.SendOk => InfoHeartbeatSent
                            | HeartbeatSender.SendRaise _ => ErrorFailedToSend
                            end)
                  (firstn 2 [HeartbeatSender.SendRaise "down"; HeartbeatSender.SendOk])
           ++ [InfoExiting].
Proof.
  apply (X5_sender_one_attempt_per_round [false; false; true] 100%float
           [100.25; 101.25]%float
           [HeartbeatSender.SendRaise "down"; HeartbeatSender.SendOk]).
  - cbn. tauto.
  - cbn. lia.
  - cbn. lia.
Defined.

End SenderWorkerExtras.

(** * Further properties of Telemetry and its worker *)

Section TelemetryLatest.

Import Telemetry TelemetryWorker.






Lemma store_present_attitude (sl : slots) (msg : option message) :
  present (attitude_data (fst (store sl msg)))
  = present (attitude_data sl) || is_attitude msg.
Proof.
  destruct msg as [[a|p|ty]|]; cbn; try now rewrite orb_false_r.
  now rewrite orb_true_r.
Qed.

Lemma store_present_position (sl : slots) (msg : option message) :
  present (position_data (fst (store sl msg)))
  = present (position_data sl) || is_position msg.
Proof.
  destruct msg as [[a|p|ty]|]; cbn; try now rewrite orb_false_r.
  now rewrite orb_true_r.
Qed.

(** The loop returns a snapshot when both kinds are in the slots or among
    the next [n + 1] results of [recv_match] and the [n] clock readings read
    meanwhile are within the budget. *)
Lemma loop_succeeds (n : nat) :
  forall lnk clk start_time remaining_timeout sl logs,
    (0 <? remaining_timeout)%float = true ->
    (n < List.length lnk)%nat ->
    (n <= List.length clk)%nat ->
    in_budget start_time (firstn n clk) = true ->
    present (attitude_data sl) || existsb is_attitude (firstn (S n) lnk) = true ->
    present (position_data sl) || existsb is_position (firstn (S n) lnk) = true ->
    exists o t,
      loop start_time remaining_timeout sl logs clk lnk = Some o
      /\ result o = (true, Some t).
Proof.
  induction n as [|n IH]; intros lnk clk start_time rem sl logs Hrem Hlen Hclk Hbud Ha Hp;
    (destruct lnk as [|msg lnk]; [cbn in Hlen; lia|]);
    cbn [loop]; rewrite Hrem;
    rewrite firstn_cons in Ha, Hp; cbn [existsb] in Ha, Hp;
    rewrite orb_assoc, <- store_present_attitude in Ha;
    rewrite orb_assoc, <- store_present_position in Hp;
    destruct (store sl msg) as [sl' l]; cbn [fst] in Ha, Hp.
  - cbn [firstn existsb] in Ha, Hp. rewrite orb_false_r in Ha, Hp.
    destruct (attitude_data sl'); [|discriminate].
    destruct (position_data sl'); [|discriminate].
    eexists. eexists. split; reflexivity.
  - destruct (attitude_data sl') as [a|] eqn:Ea;
      [destruct (position_data sl') as [p|] eqn:Ep|].
    + eexists. eexists. split; reflexivity.
    + destruct clk as [|now clk]; [cbn in Hclk; lia|].
      cbn in Hbud. apply andb_true_iff in Hbud as [Hnow Hbud].
      unfold expired in Hnow. rewrite negb_involutive in Hnow.
      apply (IH lnk clk); try assumption; cbn in Hlen, Hclk; try lia.
      * now rewrite Ea.
      * now rewrite Ep.
    + destruct clk as [|now clk]; [cbn in Hclk; lia|].
      cbn in Hbud. apply andb_true_iff in Hbud as [Hnow Hbud].
      unfold expired in Hnow. rewrite negb_involutive in Hnow.
      apply (IH lnk clk); try assumption; cbn in Hlen, Hclk; try lia.
      now rewrite Ea.
Qed.

(** What the worker puts on the queue are snapshots with every field. *)
Lemma telemetry_main_loop_complete (exits : list bool) :
  forall w out lg o,
    Forall (fun t => complete t = true) out ->
    main_loop exits w out lg = Some o ->
    Forall (fun t => complete t = true) (output_queue o)
    /\ (List.length (output_queue o) <= List.length out + iterations exits)%nat.
Proof.
  induction exits as [|[|] exits IH]; intros w out lg o Hout Hrun; cbn [main_loop] in Hrun.
  - discriminate.
  - injection Hrun as <-. cbn. split; [assumption | lia].
  - destruct (run w) as [[[[result telemetry_data] l] w']|] eqn:Erun; [|discriminate].
    destruct (run_returns w _ Erun) as (c & _ & [Hfail | (a & p & _ & _ & Hf)]).
    + unfold Telemetry.result in Hfail. cbn in Hfail. injection Hfail as -> ->.
      destruct (IH _ _ _ _ Hout Hrun) as [H1 H2]. cbn [iterations]. split; [assumption | lia].
    + unfold fuses, Telemetry.result in Hf. cbn in Hf. injection Hf as -> ->.
      assert (Hout' : Forall (fun t => complete t = true)
                        (out ++ [combine (Z.max (att_time_boot_ms a) (pos_time_boot_ms p)) a p])).
      { apply Forall_app. split; [assumption|]. constructor; [reflexivity | constructor]. }
      destruct (IH _ _ _ _ Hout' Hrun) as [H1 H2]. cbn [iterations].
      rewrite length_app in H2. cbn in H2. split; [assumption | lia].
Qed.

(** What the worker has put: the snapshots of the calls that succeeded,
    nothing for the others. *)
Lemma telemetry_main_loop_puts (exits : list bool) :
  forall w out lg o,
    main_loop exits w out lg = Some o ->
    output_queue o = out ++ snapshots_of_rounds (iterations exits) w.
Proof.
  induction exits as [|[|] exits IH]; intros w out lg o Hrun; cbn [main_loop] in Hrun.
  - discriminate.
  - injection Hrun as <-. cbn. now rewrite app_nil_r.
  - cbn [iterations snapshots_of_rounds].
    destruct (run w) as [[[[result telemetry_data] l] w']|]; [|discriminate].
    destruct result, telemetry_data as [t|];
      rewrite (IH _ _ _ _ Hrun); try reflexivity.
    now rewrite <- app_assoc.
Qed.

End TelemetryLatest.

Section TelemetryExtras.

Import Telemetry TelemetryWorker.

(** X6: a call of [run] returns a snapshot when an attitude and a position
    message are both among the first [n + 1] results of [recv_match] and the
    [n] clock readings taken between them are within the time budget. *)
Theorem X6_telemetry_returns_snapshot_when_both_arrive :
  forall (start_time : float) (clk : list float) (lnk : list (option message)) (n : nat),
    (n < List.length lnk)%nat ->
    (n <= List.length clk)%nat ->
    in_budget start_time (firstn n clk) = true ->
    existsb is_attitude (firstn (S n) lnk) = true ->
    existsb is_position (firstn (S n) lnk) = true ->
    exists o t,
      run {| clock := start_time :: clk; link := lnk |} = Some o
      /\ result o = (true, Some t).
Proof.
  intros start_time clk lnk n Hlen Hclk Hbud Ha Hp. unfold run. cbn [clock link].
  apply (loop_succeeds n); try assumption; reflexivity.
Qed.

Lemma X6_telemetry_returns_snapshot_when_both_arrive_witness :
  exists o t,
    run {| clock := 100%float :: [100.25; 100.5; 100.75]%float;
           link := [Some (LOCAL_POSITION_NED example_position); None;
                    Some (ATTITUDE example_attitude)] |} = Some o
    /\ result o = (true, Some t).
Proof.
  apply (X6_telemetry_returns_snapshot_when_both_arrive 100%float
           [100.25; 100.5; 100.75]%float
           [Some (LOCAL_POSITION_NED example_position); None;
            Some (ATTITUDE example_attitude)] 2%nat);
    try reflexivity; cbn; lia.
Defined.



(** X8: what the telemetry worker has put on its output queue when it
    returns is exactly the snapshots of the calls of [run] that succeeded,
    in order: a call that returns [(False, None)] puts nothing.  So there is
    at most one snapshot per round, and every snapshot put has all thirteen
    fields present. *)
Theorem X8_telemetry_worker_puts_complete_snapshots :
  forall (connection_given : bool) (exits : list bool) (w : world) (o : output),
    telemetry_worker connection_given exits w = Some o ->
    output_queue o
    = (if connection_given then snapshots_of_rounds (iterations exits) w else [])
    /\ Forall (fun t => complete t = true) (output_queue o)
    /\ (List.length (output_queue o) <= iterations exits)%nat.
Proof.
  intros connection_given exits w o. unfold telemetry_worker, create.
  destruct connection_given; cbn [negb].
  - intros Hrun. split.
    + exact (telemetry_main_loop_puts exits w [] _ o Hrun).
    + exact (telemetry_main_loop_complete exits w [] _ o (Forall_nil _) Hrun).
  - intros H. injection H as <-. cbn. split; [reflexivity|]. split; [constructor | lia].
Qed.

(** Two rounds: the first call times out with an attitude message alone and
    puts nothing, the second fuses the position and the attitude message it
    receives itself. *)
Lemma X8_telemetry_worker_puts_complete_snapshots_witness :
  fst (fst (match run example_fail_then_success with
            | Some r => r
            | None => ((true, None), [], example_fail_then_success)
            end)) = (false, None)
  /\ exists o,
    telemetry_worker true [false; false; true] example_fail_then_success = Some o
    /\ output_queue o = [combine 1500 example_attitude example_position]
    /\ output_queue o = snapshots_of_rounds (iterations [false; false; true])
                          example_fail_then_success
    /\ Forall (fun t => complete t = true) (output_queue o)
    /\ (List.length (output_queue o) <= iterations [false; false; true])%nat.
Proof.
  split; [vm_compute; reflexivity|].
  eexists. split; [vm_compute; reflexivity|]. split; [vm_compute; reflexivity|].
  apply (X8_telemetry_worker_puts_complete_snapshots true [false; false; true]
           example_fail_then_success).
  vm_compute. reflexivity.
Defined.

End TelemetryExtras.

(** * More binary64 facts: one step of either loop stays within reach *)

Section FloatSteps.

Import Command.

Lemma Prim2SF_eight : Prim2SF 8 = S754_finite false eight_mantissa (-49).
Proof. vm_compute. reflexivity. Qed.

(** The rounding of a positive integer is not below [-pi]. *)
Lemma SFltb_positive_round_opp_pi (m : positive) (e : Z) :
  SFltb (binary_round prec emax false m e) (S754_finite true pi_mantissa (-51)) = false.
Proof.
  unfold binary_round.
  destruct (shl_align m e (fexp prec emax (Zpos (digits2_pos m) + e))) as [mz ez].
  unfold binary_round_aux.
  destruct (shr_fexp prec emax (Zpos mz) ez loc_Exact) as [mrs e'].
  destruct (shr_fexp prec emax _ e' loc_Exact) as [mrs'' e''].
  destruct (shr_m mrs''); [reflexivity | destruct (e'' <=? emax - prec); reflexivity | reflexivity].
Qed.

(** The rounding of [- k * 2^ez] is not below [-pi] when [k * 2^ez] is less
    than [pi]. *)
Lemma SFltb_small_round_opp_pi (k : positive) (ez : Z) :
  (ez = -51 /\ Zpos k < Zpos pi_mantissa) \/ (ez = -50 /\ 2 * Zpos k < Zpos pi_mantissa) ->
  SFltb (binary_round prec emax true k ez) (S754_finite true pi_mantissa (-51)) = false.
Proof.
  intros Hk.
  assert (Hd : Zpos (digits2_pos k) <= 53).
  { apply digits2_pos_le; [lia|]. change (2 ^ 53) with 9007199254740992.
    unfold pi_mantissa in Hk. lia. }
  destruct (binary_round_small true k ez Hd) as (m & e' & -> & _ & He' & Hm); [lia|].
  unfold SFltb, SFcompare. rewrite Pos.compare_cont_spec. cbn [Pos.switch_Eq].
  destruct (Z.compare_spec e' (-51)) as [Heq | Hlt | Hgt]; try reflexivity.
  - destruct Hk as [[-> Hk] | [-> Hk]].
    + replace (53 - Zpos (digits2_pos k)) with 0 in Hm by lia.
      change (2 ^ 0) with 1 in Hm.
      destruct (Pos.compare_spec m pi_mantissa); try reflexivity. lia.
    + replace (53 - Zpos (digits2_pos k)) with 1 in Hm by lia.
      change (2 ^ 1) with 2 in Hm.
      destruct (Pos.compare_spec m pi_mantissa); try reflexivity. lia.
  - exfalso. destruct Hk as [[-> Hk] | [-> Hk]]; [lia|].
    assert (Zpos (digits2_pos k) <= 52); [|lia].
    apply digits2_pos_le; [lia|]. change (2 ^ 52) with 4503599627370496.
    unfold pi_mantissa in Hk. lia.
Qed.

(** What [pi < d] says of the mantissa and exponent of a positive [d]. *)
Lemma SFltb_above_pi (m : positive) (e : Z) :
  SFltb (S754_finite false pi_mantissa (-51)) (S754_finite false m e) = true ->
  -51 < e \/ (e = -51 /\ Zpos pi_mantissa < Zpos m).
Proof.
  unfold SFltb, SFcompare. rewrite Pos.compare_cont_spec. cbn [Pos.switch_Eq].
  destruct (Z.compare_spec (-51) e) as [Heq | Hlt | Hgt]; [ | lia | discriminate].
  destruct (Pos.compare_spec pi_mantissa m) as [H | H | H]; try discriminate.
  intros _. right. split; [symmetry; exact Heq | lia].
Qed.

(** A normal double below 8 in magnitude has exponent at most -50. *)
Lemma SFltb_below_eight (m : positive) (e : Z) :
  Zpos eight_mantissa <= Zpos m ->
  SFltb (S754_finite false m e) (S754_finite false eight_mantissa (-49)) = true ->
  e <= -50.
Proof.
  intros Hm. unfold SFltb, SFcompare. rewrite Pos.compare_cont_spec. cbn [Pos.switch_Eq].
  destruct (Z.compare_spec e (-49)) as [Heq | Hlt | Hgt]; [ | lia | discriminate].
  destruct (Pos.compare_spec m eight_mantissa) as [H | H | H]; try discriminate.
  apply Pos2Z.pos_lt_pos in H. lia.
Qed.

(** The aligned mantissa of a normal double with exponent from -50 up. *)
Lemma shl_align_normal (m : positive) (e : Z) :
  4503599627370496 <= Zpos m -> -50 <= e ->
  exists M, fst (shl_align m e (-50)) = M
            /\ 4503599627370496 <= Zpos M
            /\ (e = -50 -> M = m).
Proof.
  intros Hm He. unfold shl_align. destruct (-50 - e) as [|q|q] eqn:Eq; cbn [fst].
  - exists m. repeat split; lia.
  - lia.
  - exists (Pos.iter xO m q). split; [reflexivity|]. split; [|lia].
    rewrite iter_xO_value.
    assert (0 < 2 ^ Zpos q) by (apply Z.pow_pos_nonneg; lia).
    apply Z.le_trans with (Zpos m * 1); [lia | apply Z.mul_le_mono_nonneg_l; lia].
Qed.

(** The first loop does not overshoot: from above [pi], subtracting
    [2 * pi] does not go below [-pi]. *)
Lemma sub_two_pi_not_below_opp_pi (d : float) :
  (pi <? d)%float = true -> (d - 2 * pi <? - pi)%float = false.
Proof.
  intros H. rewrite ltb_spec in H |- *. rewrite sub_spec.
  rewrite Prim2SF_opp_pi, Prim2SF_two_pi. rewrite Prim2SF_pi in H.
  pose proof (Prim2SF_valid d) as Hv.
  destruct (Prim2SF d) as [s|s| |s m e].
  - destruct s; discriminate.
  - destruct s; [discriminate | reflexivity].
  - discriminate.
  - destruct s; [discriminate|].
    cbn [SpecFloat.valid_binary] in Hv.
    pose proof (SFltb_above_pi m e H) as Hcase. clear H.
    destruct (valid_normal m e Hv) as [Hm He]; [lia|].
    unfold SF64sub, SFsub, cond_Zopp.
    destruct Hcase as [Hgt | [-> Hlt]].
    + replace (Z.min e (-50)) with (-50) by lia.
      destruct (shl_align_normal m e) as (M & -> & HM & _); [lia | lia |].
      change (fst (shl_align pi_mantissa (-50) (-50))) with pi_mantissa.
      destruct (Zpos M - Zpos pi_mantissa) as [|k|k] eqn:Ek; cbn [binary_normalize].
      * reflexivity.
      * apply SFltb_positive_round_opp_pi.
      * apply SFltb_small_round_opp_pi. right. split; [reflexivity|].
        unfold pi_mantissa in *. lia.
    + change (Z.min (-51) (-50)) with (-51).
      change (fst (shl_align m (-51) (-51))) with m.
      change (fst (shl_align pi_mantissa (-50) (-51))) with (pi_mantissa~0)%positive.
      destruct (Zpos m - Zpos pi_mantissa~0) as [|k|k] eqn:Ek; cbn [binary_normalize].
      * reflexivity.
      * apply SFltb_positive_round_opp_pi.
      * apply SFltb_small_round_opp_pi. left. split; [reflexivity|].
        rewrite Pos2Z.inj_xO in Ek. lia.
Qed.

(** From above [pi] and below 8, one subtraction of [2 * pi] is enough. *)
Lemma sub_two_pi_not_above_pi (d : float) :
  (pi <? d)%float = true -> (abs d <? 8)%float = true ->
  (pi <? d - 2 * pi)%float = false.
Proof.
  intros H Habs. rewrite ltb_spec in H, Habs |- *. rewrite sub_spec.
  rewrite abs_spec, Prim2SF_eight in Habs.
  rewrite Prim2SF_pi, Prim2SF_two_pi. rewrite Prim2SF_pi in H.
  pose proof (Prim2SF_valid d) as Hv.
  destruct (Prim2SF d) as [s|s| |s m e].
  - destruct s; discriminate.
  - destruct s; discriminate.
  - discriminate.
  - destruct s; [discriminate|].
    cbn [SpecFloat.valid_binary] in Hv. cbn [SFabs] in Habs.
    pose proof (SFltb_above_pi m e H) as Hcase. clear H.
    destruct (valid_normal m e Hv) as [Hm He]; [lia|].
    assert (He8 : e <= -50).
    { apply (SFltb_below_eight m e); [unfold eight_mantissa; lia | exact Habs]. }
    unfold SF64sub, SFsub, cond_Zopp.
    destruct Hcase as [Hgt | [-> Hlt]].
    + assert (e = -50) by lia. subst e.
      change (Z.min (-50) (-50)) with (-50).
      change (fst (shl_align m (-50) (-50))) with m.
      change (fst (shl_align pi_mantissa (-50) (-50))) with pi_mantissa.
      destruct (Zpos m - Zpos pi_mantissa) as [|k|k] eqn:Ek; cbn [binary_normalize].
      * reflexivity.
      * apply SFltb_pi_small_round. right. split; [reflexivity|].
        unfold pi_mantissa in *. lia.
      * apply SFltb_pi_negative_round.
    + change (Z.min (-51) (-50)) with (-51).
      change (fst (shl_align m (-51) (-51))) with m.
      change (fst (shl_align pi_mantissa (-50) (-51))) with (pi_mantissa~0)%positive.
      destruct (Zpos m - Zpos pi_mantissa~0) as [|k|k] eqn:Ek; cbn [binary_normalize].
      * reflexivity.
      * exfalso. rewrite Pos2Z.inj_xO in Ek. unfold pi_mantissa in Ek. lia.
      * apply SFltb_pi_negative_round.
Qed.

(** From below [-pi] and above -8, one addition of [2 * pi] is enough. *)
Lemma add_two_pi_not_below_opp_pi (d : float) :
  (d <? - pi)%float = true -> (abs d <? 8)%float = true ->
  (d + 2 * pi <? - pi)%float = false.
Proof.
  intros H Habs. rewrite ltb_spec in H, Habs |- *. rewrite add_spec.
  rewrite abs_spec, Prim2SF_eight in Habs.
  rewrite Prim2SF_opp_pi, Prim2SF_two_pi. rewrite Prim2SF_opp_pi in H.
  pose proof (Prim2SF_valid d) as Hv.
  destruct (Prim2SF d) as [s|s| |s m e].
  - destruct s; discriminate.
  - destruct s; discriminate.
  - discriminate.
  - destruct s; [|discriminate].
    cbn [SpecFloat.valid_binary] in Hv. cbn [SFabs] in Habs.
    pose proof (SFltb_below_opp_pi m e H) as Hcase. clear H.
    destruct (valid_normal m e Hv) as [Hm He]; [lia|].
    assert (He8 : e <= -50).
    { apply (SFltb_below_eight m e); [unfold eight_mantissa; lia | exact Habs]. }
    unfold SF64add, SFadd, cond_Zopp.
    destruct Hcase as [Hgt | [-> Hlt]].
    + assert (e = -50) by lia. subst e.
      change (Z.min (-50) (-50)) with (-50).
      change (fst (shl_align m (-50) (-50))) with m.
      change (fst (shl_align pi_mantissa (-50) (-50))) with pi_mantissa.
      destruct (- Zpos m + Zpos pi_mantissa) as [|k|k] eqn:Ek; cbn [binary_normalize].
      * reflexivity.
      * apply SFltb_positive_round_opp_pi.
      * apply SFltb_small_round_opp_pi. right. split; [reflexivity|].
        unfold pi_mantissa in *. lia.
    + change (Z.min (-51) (-50)) with (-51).
      change (fst (shl_align m (-51) (-51))) with m.
      change (fst (shl_align pi_mantissa (-50) (-51))) with (pi_mantissa~0)%positive.
      destruct (- Zpos m + Zpos pi_mantissa~0) as [|k|k] eqn:Ek; cbn [binary_normalize].
      * reflexivity.
      * apply SFltb_positive_round_opp_pi.
      * exfalso. rewrite Pos2Z.inj_xO in Ek. unfold pi_mantissa in Ek. lia.
Qed.

End FloatSteps.

(** * Further properties of Command *)

Section CommandShape.

Import Command StatusCommand.

Variable atan2 : float -> float -> float.

Lemma yaw_check_target (fuel : nat) (s s' : state) (t : Telemetry.TelemetryData) :
  target s' = target s -> yaw_check atan2 fuel s' t = yaw_check atan2 fuel s t.
Proof. unfold yaw_check. now intros ->. Qed.

(** The three shapes of what a returning call hands back: nothing sent and
    [(False, None)]; the altitude command and its status; a yaw command and
    its status. *)
Lemma run_shape (fuel : nat) (s s' : state) (td : option Telemetry.TelemetryData)
  (e : effects) :
  run atan2 fuel s td = Some (s', e) ->
  (sent e = [] /\ returned e = (false, None))
  \/ (exists delta_z,
        sent e = [altitude_command (target s)]
        /\ returned e = (true, Some (CHANGE_ALTITUDE delta_z))
        /\ (HEIGHT_TOLERANCE <? abs delta_z)%float = true)
  \/ (exists delta_yaw_deg,
        sent e = [yaw_command delta_yaw_deg]
        /\ returned e = (true, Some (CHANGE_YAW delta_yaw_deg))
        /\ (ANGLE_TOLERANCE <? abs delta_yaw_deg)%float = true).
Proof.
  destruct td as [t|]; [|cbn; intros H; injection H as <- <-; left; now split].
  intros Hrun.
  destruct (run_cases atan2 fuel s s' t e Hrun)
    as [_ [(l & r & Halt & ->) | (_ & cmds & l & r & Hyaw & ->)]].
  - right. left. unfold altitude_check in Halt.
    destruct (Telemetry.z t) as [tz|]; [|discriminate].
    destruct (HEIGHT_TOLERANCE <? abs (z (target s) - tz))%float eqn:Etol; [|discriminate].
    injection Halt as <- <-. exists (z (target s) - tz)%float. now repeat split.
  - unfold yaw_check in Hyaw.
    destruct (Telemetry.x t) as [tx|]; [|injection Hyaw as <- <- <-; left; now split].
    destruct (Telemetry.y t) as [ty|]; [|injection Hyaw as <- <- <-; left; now split].
    destruct (Telemetry.yaw t) as [tyaw|]; [|injection Hyaw as <- <- <-; left; now split].
    destruct (normalize fuel _) as [r'|]; [|discriminate].
    destruct (ANGLE_TOLERANCE <? abs (degrees r'))%float eqn:Etol;
      injection Hyaw as <- <- <-; [|left; now split].
    right. right. exists (degrees r'). now repeat split.
Qed.

Lemma run_target (fuel : nat) (s s' : state) (td : option Telemetry.TelemetryData)
  (e : effects) :
  run atan2 fuel s td = Some (s', e) -> target s' = target s.
Proof.
  destruct td as [t|]; [|cbn; intros H; now injection H as <- <-].
  intros Hrun. destruct (run_cases atan2 fuel s s' t e Hrun) as [-> _].
  apply update_velocity_target.
Qed.

(** One status is reported for each command sent, and it names it. *)
Lemma run_reported (fuel : nat) (s s' : state) (td : option Telemetry.TelemetryData)
  (e : effects) :
  run atan2 fuel s td = Some (s', e) ->
  sent e = map (command_for (target s)) (reported (returned e)).
Proof.
  intros Hrun.
  destruct (run_shape fuel s s' td e Hrun)
    as [[-> ->] | [(dz & -> & -> & _) | (deg & -> & -> & _)]]; reflexivity.
Qed.

(** The decision is a function of the target and the snapshot alone. *)
Lemma run_decision_target (fuel : nat) (s1 s2 : state)
  (td : option Telemetry.TelemetryData) :
  target s1 = target s2 ->
  match run atan2 fuel s1 td, run atan2 fuel s2 td with
  | Some (_, e1), Some (_, e2) => sent e1 = sent e2 /\ returned e1 = returned e2
  | None, None => True
  | _, _ => False
  end.
Proof.
  intros Ht. destruct td as [t|]; [|cbn; now split].
  unfold run.
  pose proof (update_velocity_target s1 t) as H1.
  pose proof (update_velocity_target s2 t) as H2.
  destruct (update_velocity s1 t) as [s1' l1], (update_velocity s2 t) as [s2' l2].
  cbn [fst] in H1, H2.
  rewrite (altitude_check_target s1 s1' t H1), (altitude_check_target s2 s2' t H2).
  assert (Ha : altitude_check s1 t = altitude_check s2 t)
    by (apply altitude_check_target; now symmetry).
  rewrite Ha.
  destruct (altitude_check s2 t) as [[[cmds l] r]|]; [now split|].
  assert (Hy : yaw_check atan2 fuel s1' t = yaw_check atan2 fuel s2' t)
    by (apply yaw_check_target; congruence).
  rewrite Hy. destruct (yaw_check atan2 fuel s2' t) as [[[cmds l] r]|]; [now split | exact I].
Qed.

End CommandShape.

Section CommandExtras.

Import Command StatusCommand.

(** X9: on a snapshot with every field present, as the telemetry worker
    puts them, a returning call of [Command.run] adds the three velocities
    of the snapshot to the running sums and one to the sample count, and it
    sends no command only when the altitude difference and the normalised
    yaw difference are both within tolerance. *)
Theorem X9_complete_snapshot_is_fully_evaluated :
  forall atan2 fuel s t s' e,
    TelemetryWorker.complete t = true ->
    run atan2 fuel s (Some t) = Some (s', e) ->
    sample_count s' = sample_count s + 1
    /\ (exists vx vy vz,
          Telemetry.x_velocity t = Some vx /\ Telemetry.y_velocity t = Some vy
          /\ Telemetry.z_velocity t = Some vz
          /\ total_velocity_x s' = (total_velocity_x s + vx)%float
          /\ total_velocity_y s' = (total_velocity_y s + vy)%float
          /\ total_velocity_z s' = (total_velocity_z s + vz)%float)
    /\ (sent e = [] ->
        exists tx ty tz tyaw r,
          Telemetry.x t = Some tx /\ Telemetry.y t = Some ty
          /\ Telemetry.z t = Some tz /\ Telemetry.yaw t = Some tyaw
          /\ (HEIGHT_TOLERANCE <? abs (z (target s) - tz))%float = false
          /\ normalize fuel (atan2 (y (target s) - ty) (x (target s) - tx) - tyaw)%float
             = Some r
          /\ (ANGLE_TOLERANCE <? abs (degrees r))%float = false).
Proof.
  intros atan2 fuel s t s' e Hc Hrun.
  destruct t as [tb tx ty tz vx vy vz ro pit ya rs ps ys].
  unfold TelemetryWorker.complete in Hc. cbn in Hc.
  destruct tb, tx as [tx|], ty as [ty|], tz as [tz|], vx as [vx|], vy as [vy|],
           vz as [vz|], ro, pit, ya as [tyaw|], rs, ps, ys; try discriminate.
  destruct (run_cases atan2 fuel s s' _ e Hrun)
    as [-> [(l & r & Halt & ->) | (Halt & cmds & l & r & Hyaw & ->)]].
  - split; [reflexivity|]. split; [|discriminate].
    exists vx, vy, vz. now repeat split.
  - split; [reflexivity|]. split; [exists vx, vy, vz; now repeat split|].
    unfold sent. cbn [fst]. intros ->.
    unfold altitude_check in Halt. cbn [Telemetry.z] in Halt.
    destruct (HEIGHT_TOLERANCE <? abs (z (target s) - tz))%float eqn:Etol; [discriminate|].
    rewrite (yaw_check_target atan2 fuel s _ _ (update_velocity_target s _)) in Hyaw.
    unfold yaw_check in Hyaw. cbn [Telemetry.x Telemetry.y Telemetry.yaw] in Hyaw.
    destruct (normalize fuel _) as [r'|] eqn:En; [|discriminate].
    destruct (ANGLE_TOLERANCE <? abs (degrees r'))%float eqn:Eang; [discriminate|].
    exists tx, ty, tz, tyaw, r'. now repeat split.
Qed.

(** X9 on a snapshot at the target's altitude and heading, moving at
    (0.5, -0.25, 1) m/s: no command is sent and the velocities are added. *)
Lemma X9_complete_snapshot_is_fully_evaluated_witness :
  exists s' e,
    run atan2_quarter_turn 0 (example_state (mkPosition 0 10 8))
        (Some (Telemetry.combine 1500
                 (Telemetry.mkAttitude 1500 0 0 (pi / 2) 0 0 0)
                 (Telemetry.mkPosition 1480 0 0 8 0.5 (-0.25) 1)))
    = Some (s', e)
    /\ sent e = []
    /\ s' = {| target := mkPosition 0 10 8; total_velocity_x := 0.5;
               total_velocity_y := -0.25; total_velocity_z := 1; sample_count := 1 |}
    /\ sample_count s' = sample_count (example_state (mkPosition 0 10 8)) + 1
    /\ (exists vx vy vz,
          Some 0.5%float = Some vx /\ Some (-0.25)%float = Some vy
          /\ Some 1%float = Some vz
          /\ total_velocity_x s' = (0 + vx)%float
          /\ total_velocity_y s' = (0 + vy)%float
          /\ total_velocity_z s' = (0 + vz)%float)
    /\ (sent e = [] ->
        exists tx ty tz tyaw r,
          Some 0%float = Some tx /\ Some 0%float = Some ty
          /\ Some 8%float = Some tz /\ Some (pi / 2)%float = Some tyaw
          /\ (HEIGHT_TOLERANCE <? abs (8 - tz))%float = false
          /\ normalize 0 (atan2_quarter_turn (10 - ty) (0 - tx) - tyaw)%float = Some r
          /\ (ANGLE_TOLERANCE <? abs (degrees r))%float = false).
Proof.
  eexists. eexists. split; [vm_compute; reflexivity|].
  split; [reflexivity|]. split; [reflexivity|].
  refine (X9_complete_snapshot_is_fully_evaluated atan2_quarter_turn 0%nat
            (example_state (mkPosition 0 10 8))
            (Telemetry.combine 1500
               (Telemetry.mkAttitude 1500 0 0 (pi / 2) 0 0 0)
               (Telemetry.mkPosition 1480 0 0 8 0.5 (-0.25) 1)) _ _ eq_refl _).
  vm_compute. reflexivity.
Defined.

(** X10: the decision and the velocity accumulator do not touch each other:
    two objects with the same target, whatever their sums and sample counts,
    send the same commands and return the same tuple on the same snapshot
    (or both fail to return), and the attributes after a call are those of
    the accumulator update alone, whatever was decided. *)
Theorem X10_decision_and_accumulator_are_independent :
  forall atan2 fuel s1 s2 td,
    target s1 = target s2 ->
    match run atan2 fuel s1 td, run atan2 fuel s2 td with
    | Some (s1', e1), Some (s2', e2) =>
        sent e1 = sent e2 /\ returned e1 = returned e2
        /\ (forall t, td = Some t ->
              s1' = fst (update_velocity s1 t) /\ s2' = fst (update_velocity s2 t))
    | None, None => True
    | _, _ => False
    end.
Proof.
  intros atan2 fuel s1 s2 td Ht.
  pose proof (run_decision_target atan2 fuel s1 s2 td Ht) as H.
  destruct (run atan2 fuel s1 td) as [[s1' e1]|] eqn:E1;
    destruct (run atan2 fuel s2 td) as [[s2' e2]|] eqn:E2; try exact H.
  destruct H as [Hs Hr]. repeat split; try assumption.
  - subst td. now destruct (run_cases atan2 fuel s1 s1' t e1 E1).
  - subst td. now destruct (run_cases atan2 fuel s2 s2' t e2 E2).
Qed.

Lemma X10_decision_and_accumulator_are_independent_witness :
  match run atan2_quarter_turn 0 (example_state (mkPosition 0 10 10))
            (Some (example_telemetry 0 0 (Some 8%float) 0)),
        run atan2_quarter_turn 0
            {| target := mkPosition 0 10 10; total_velocity_x := 3;
               total_velocity_y := 4; total_velocity_z := 5; sample_count := 7 |}
            (Some (example_telemetry 0 0 (Some 8%float) 0)) with
  | Some (s1', e1), Some (s2', e2) =>
      sent e1 = sent e2 /\ returned e1 = returned e2
      /\ (forall t, Some (example_telemetry 0 0 (Some 8%float) 0) = Some t ->
            s1' = fst (update_velocity (example_state (mkPosition 0 10 10)) t)
            /\ s2' = fst (update_velocity
                            {| target := mkPosition 0 10 10; total_velocity_x := 3;
                               total_velocity_y := 4; total_velocity_z := 5;
                               sample_count := 7 |} t))
  | None, None => True
  | _, _ => False
  end.
Proof.
  exact (X10_decision_and_accumulator_are_independent atan2_quarter_turn 0%nat
           (example_state (mkPosition 0 10 10))
           {| target := mkPosition 0 10 10; total_velocity_x := 3;
              total_velocity_y := 4; total_velocity_z := 5; sample_count := 7 |}
           (Some (example_telemetry 0 0 (Some 8%float) 0)) eq_refl).
Defined.

(** X11: what a call returns tells what it sent: [(False, None)] with
    nothing sent; or [(True, "CHANGE ALTITUDE: d")] with exactly the altitude
    command sent and [abs d] above 0.5; or [(True, "CHANGE YAW: d")] with
    exactly the yaw command for [d] sent and [abs d] above 5. *)
Theorem X11_returned_status_matches_command_sent :
  forall atan2 fuel s td s' e,
    run atan2 fuel s td = Some (s', e) ->
    (sent e = [] /\ returned e = (false, None))
    \/ (exists delta_z,
          sent e = [altitude_command (target s)]
          /\ returned e = (true, Some (CHANGE_ALTITUDE delta_z))
          /\ (HEIGHT_TOLERANCE <? abs delta_z)%float = true)
    \/ (exists delta_yaw_deg,
          sent e = [yaw_command delta_yaw_deg]
          /\ returned e = (true, Some (CHANGE_YAW delta_yaw_deg))
          /\ (ANGLE_TOLERANCE <? abs delta_yaw_deg)%float = true).
Proof. intros atan2 fuel s td s' e. apply run_shape. Qed.

Lemma X11_returned_status_matches_command_sent_witness :
  exists s' e,
    run atan2_quarter_turn 1 (example_state (mkPosition 0 10 8))
        (Some (example_telemetry 0 0 (Some 8%float) 0)) = Some (s', e)
    /\ ((sent e = [] /\ returned e = (false, None))
        \/ (exists delta_z,
              sent e = [altitude_command (target (example_state (mkPosition 0 10 8)))]
              /\ returned e = (true, Some (CHANGE_ALTITUDE delta_z))
              /\ (HEIGHT_TOLERANCE <? abs delta_z)%float = true)
        \/ (exists delta_yaw_deg,
              sent e = [yaw_command delta_yaw_deg]
              /\ returned e = (true, Some (CHANGE_YAW delta_yaw_deg))
              /\ (ANGLE_TOLERANCE <? abs delta_yaw_deg)%float = true)).
Proof.
  eexists. eexists. split; [vm_compute; reflexivity|].
  refine (X11_returned_status_matches_command_sent atan2_quarter_turn 1%nat
            (example_state (mkPosition 0 10 8))
            (Some (example_telemetry 0 0 (Some 8%float) 0)) _ _ _).
  vm_compute. reflexivity.
Defined.

(** X12: missing input suppresses the checks without an error: on [None]
    the call logs an error and returns [(False, None)] with the attributes
    untouched; on a snapshot with no z and without x, y or yaw it sends
    nothing and returns [(False, None)], whatever [atan2] is and with no
    iteration of the yaw loops. *)
Theorem X12_missing_fields_suppress_checks :
  (forall atan2 fuel s,
      run atan2 fuel s None = Some (s, ([], [ErrorNoneTelemetry], (false, None))))
  /\ (forall atan2 fuel s t,
        Telemetry.z t = None ->
        Telemetry.x t = None \/ Telemetry.y t = None \/ Telemetry.yaw t = None ->
        exists e,
          run atan2 fuel s (Some t) = Some (fst (update_velocity s t), e)
          /\ sent e = [] /\ returned e = (false, None)).
Proof.
  split; [reflexivity|].
  intros atan2 fuel s t Hz Hmiss. unfold run.
  pose proof (update_velocity_target s t) as Ht.
  destruct (update_velocity s t) as [s1 l1]. cbn [fst] in *.
  unfold altitude_check, yaw_check. rewrite Hz.
  destruct Hmiss as [H | [H | H]]; rewrite H;
    destruct (Telemetry.x t), (Telemetry.y t);
    eexists; (split; [reflexivity | split; reflexivity]).
Qed.

Lemma X12_missing_fields_suppress_checks_witness :
  exists e,
    run atan2_quarter_turn 0 (example_state (mkPosition 0 10 10))
        (Some (Telemetry.mkTelemetryData (Some 1500) (Some 1%float) None None
                 None None None None None (Some 2%float) None None None))
    = Some (fst (update_velocity (example_state (mkPosition 0 10 10))
                   (Telemetry.mkTelemetryData (Some 1500) (Some 1%float) None None
                      None None None None None (Some 2%float) None None None)), e)
    /\ sent e = [] /\ returned e = (false, None).
Proof.
  apply (proj2 X12_missing_fields_suppress_checks atan2_quarter_turn 0%nat
           (example_state (mkPosition 0 10 10))
           (Telemetry.mkTelemetryData (Some 1500) (Some 1%float) None None
              None None None None None (Some 2%float) None None None) eq_refl).
  right. left. reflexivity.
Defined.

End CommandExtras.

(** * Further properties of the yaw normalisation *)

Section NormalizeSteps.

Import Command.

Lemma normalize_down_in_range (fuel : nat) (d : float) :
  (pi <? d)%float = false -> normalize_down fuel d = Some d.
Proof. intros H. destruct fuel; cbn [normalize_down]; now rewrite H. Qed.

Lemma normalize_up_in_range (fuel : nat) (d : float) :
  (d <? - pi)%float = false -> normalize_up fuel d = Some d.
Proof. intros H. destruct fuel; cbn [normalize_up]; now rewrite H. Qed.

Lemma normalize_in_range (fuel : nat) (d : float) :
  (pi <? d)%float = false -> (d <? - pi)%float = false -> normalize fuel d = Some d.
Proof.
  intros Hhi Hlo. unfold normalize.
  now rewrite (normalize_down_in_range fuel d Hhi), (normalize_up_in_range fuel d Hlo).
Qed.

(** When the first loop has run at least once, what it leaves is not below
    [-pi]. *)
Lemma normalize_down_not_below (fuel : nat) :
  forall d d1, (pi <? d)%float = true -> normalize_down fuel d = Some d1 ->
               (d1 <? - pi)%float = false.
Proof.
  induction fuel as [|fuel IH]; intros d d1 Hd; cbn [normalize_down]; rewrite Hd;
    [discriminate|].
  destruct (pi <? d - 2 * pi)%float eqn:E.
  - apply IH. exact E.
  - rewrite (normalize_down_in_range fuel _ E). intros H. injection H as <-.
    now apply sub_two_pi_not_below_opp_pi.
Qed.

(** Above [pi] and below 8, the first loop makes exactly one iteration. *)
Lemma abs_below_eight_sub (d : float) :
  (abs d <? 8)%float = true -> (pi <? d)%float = true ->
  normalize_down 1 d = Some (d - 2 * pi)%float.
Proof.
  intros Habs Hd. cbn [normalize_down]. rewrite Hd.
  now rewrite (sub_two_pi_not_above_pi d Hd Habs).
Qed.

End NormalizeSteps.

Section NormalizeExtras.

Import Command.

(** X13: a difference that is neither above [pi] nor below [-pi] is
    returned unchanged by the two loops without any iteration, so
    normalising what has been normalised changes nothing. *)
Theorem X13_normalize_is_idempotent :
  (forall fuel d,
      (pi <? d)%float = false -> (d <? - pi)%float = false ->
      normalize fuel d = Some d)
  /\ (forall fuel fuel' d r, normalize fuel d = Some r -> normalize fuel' r = Some r).
Proof.
  split.
  - intros fuel d. apply normalize_in_range.
  - intros fuel fuel' d r H.
    destruct (normalize_range fuel d r H) as (Hhi & Hlo & _).
    now apply normalize_in_range.
Qed.

Lemma X13_normalize_is_idempotent_witness :
  normalize 0 (radians 200 - 2 * pi)%float = Some (radians 200 - 2 * pi)%float.
Proof.
  exact (proj2 X13_normalize_is_idempotent 1%nat 0%nat (radians 200)
           (radians 200 - 2 * pi)%float eq_refl).
Defined.

(** X14: for a yaw difference of magnitude below 8 radians, which covers
    every difference of two angles taken in the range from -pi to pi, the
    loops end after at most one iteration in all: the result is the
    difference itself, or the difference minus [2 * pi], or plus [2 * pi],
    and it is neither above [pi] nor below [-pi]. *)
Theorem X14_normalize_ends_within_one_iteration :
  forall (fuel : nat) (d : float),
    (abs d <? 8)%float = true ->
    exists r,
      normalize (S fuel) d = Some r
      /\ normalize 1 d = Some r
      /\ (r = d \/ r = (d - 2 * pi)%float \/ r = (d + 2 * pi)%float)
      /\ (pi <? r)%float = false /\ (r <? - pi)%float = false.
Proof.
  intros fuel d Habs.
  assert (Hone : exists r,
             normalize 1 d = Some r
             /\ (r = d \/ r = (d - 2 * pi)%float \/ r = (d + 2 * pi)%float)
             /\ (pi <? r)%float = false /\ (r <? - pi)%float = false).
  { unfold normalize. destruct (pi <? d)%float eqn:Ehi.
    - rewrite (abs_below_eight_sub d Habs Ehi).
      pose proof (sub_two_pi_not_above_pi d Ehi Habs) as H1.
      pose proof (sub_two_pi_not_below_opp_pi d Ehi) as H2.
      rewrite (normalize_up_in_range 1 _ H2).
      eexists. split; [reflexivity|]. split; [right; left; reflexivity|]. now split.
    - rewrite (normalize_down_in_range 1 d Ehi).
      destruct (d <? - pi)%float eqn:Elo.
      + cbn [normalize_up]. rewrite Elo.
        pose proof (add_two_pi_not_below_opp_pi d Elo Habs) as H2.
        pose proof (add_two_pi_not_above_pi d Elo) as H1.
        rewrite H2.
        eexists. split; [reflexivity|]. split; [right; right; reflexivity|]. now split.
      + rewrite (normalize_up_in_range 1 d Elo).
        eexists. split; [reflexivity|]. split; [left; reflexivity|]. now split. }
  destruct Hone as (r & Hn & Hr & Hhi & Hlo).
  exists r. repeat split; try assumption.
  unfold normalize in *.
  destruct (normalize_down 1 d) as [d1|] eqn:E1; [|discriminate].
  assert (E1' : normalize_down (S fuel) d = Some d1).
  { cbn [normalize_down] in E1 |- *. destruct (pi <? d)%float; [|exact E1].
    destruct (pi <? d - 2 * pi)%float eqn:E; [discriminate|].
    now rewrite (normalize_down_in_range fuel _ E). }
  rewrite E1'.
  cbn [normalize_up] in Hn |- *. destruct (d1 <? - pi)%float; [|exact Hn].
  destruct (d1 + 2 * pi <? - pi)%float eqn:E; [discriminate|].
  now rewrite (normalize_up_in_range fuel _ E).
Qed.

Lemma X14_normalize_ends_within_one_iteration_witness :
  exists r,
    normalize 3 (radians 200) = Some r
    /\ normalize 1 (radians 200) = Some r
    /\ (r = radians 200 \/ r = (radians 200 - 2 * pi)%float
        \/ r = (radians 200 + 2 * pi)%float)
    /\ (pi <? r)%float = false /\ (r <? - pi)%float = false.
Proof.
  exact (X14_normalize_ends_within_one_iteration 2%nat (radians 200) eq_refl).
Defined.

(** X15: the two loops never both iterate: when the difference starts above
    [pi] and the first loop ends, what it leaves is not below [-pi], so the
    second loop returns it without an iteration. *)
Theorem X15_loops_never_both_iterate :
  forall (fuel fuel' : nat) (d d1 : float),
    (pi <? d)%float = true ->
    normalize_down fuel d = Some d1 ->
    (d1 <? - pi)%float = false
    /\ normalize_up fuel' d1 = Some d1
    /\ normalize fuel d = Some d1.
Proof.
  intros fuel fuel' d d1 Hd Hdown.
  pose proof (normalize_down_not_below fuel d d1 Hd Hdown) as Hlo.
  repeat split.
  - exact Hlo.
  - now apply normalize_up_in_range.
  - unfold normalize. rewrite Hdown. now apply normalize_up_in_range.
Qed.

Lemma X15_loops_never_both_iterate_witness :
  ((radians 200 - 2 * pi)%float <? - pi)%float = false
  /\ normalize_up 0 (radians 200 - 2 * pi)%float = Some (radians 200 - 2 * pi)%float
  /\ normalize 1 (radians 200) = Some (radians 200 - 2 * pi)%float.
Proof.
  exact (X15_loops_never_both_iterate 1%nat 0%nat (radians 200)
           (radians 200 - 2 * pi)%float eq_refl eq_refl).
Defined.

End NormalizeExtras.

(** * Further properties of command_worker *)

Section WorkerCorrespondence.

Import CommandWorker StatusCommand.

Variable atan2 : float -> float -> float.

Lemma put_status_reported (r : bool * option Command.status) :
  fst (put_status r) = reported r.
Proof. destruct r as [[|] [st|]]; reflexivity. Qed.

(** Through the loop the commands sent stay those named by the statuses
    put, and the target stays the same. *)
Lemma main_loop_commands (fuel : nat) (exits : list bool) :
  forall s queue cmds out lg o,
    cmds = map (command_for (Command.target s)) out ->
    main_loop atan2 fuel exits s queue cmds out lg = Some o ->
    commands o = map (command_for (Command.target s)) (output_queue o).
Proof.
  induction exits as [|[|] exits IH]; intros s queue cmds out lg o Hinv Hrun;
    cbn [main_loop] in Hrun.
  - discriminate.
  - injection Hrun as <-. exact Hinv.
  - destruct queue as [|[t|] queue].
    + exact (IH _ _ _ _ _ _ Hinv Hrun).
    + destruct (Command.run atan2 fuel s (Some t)) as [[s' [[c l] r]]|] eqn:Erun;
        [|discriminate].
      pose proof (run_reported atan2 fuel s s' (Some t) _ Erun) as Hrep.
      pose proof (run_target atan2 fuel s s' (Some t) _ Erun) as Htgt.
      unfold Command.sent, Command.returned in Hrep. cbn [fst snd] in Hrep.
      pose proof (put_status_reported r) as Hput.
      destruct (put_status r) as [put l']. cbn [fst] in Hput. subst put.
      rewrite <- Htgt. refine (IH _ _ _ _ _ _ _ Hrun).
      rewrite Htgt, map_app, <- Hinv, <- Hrep. reflexivity.
    + injection Hrun as <-. exact Hinv.
Qed.

(** With nothing on the input queue the loop only waits for the exit
    request. *)
Lemma main_loop_empty_queue (fuel : nat) (exits : list bool) :
  forall s cmds out lg,
    In true exits ->
    exists l,
      main_loop atan2 fuel exits s [] cmds out lg
      = Some {| final := Some s; commands := cmds; output_queue := out;
                logs := l; input_queue := [] |}.
Proof.
  induction exits as [|[|] exits IH]; intros s cmds out lg Hin.
  - destruct Hin.
  - cbn. eexists. reflexivity.
  - destruct Hin as [Hin|Hin]; [discriminate|]. cbn [main_loop]. now apply IH.
Qed.

End WorkerCorrespondence.

Section WorkerExtras.

Import CommandWorker StatusCommand.

(** X16: when the command worker returns, the statuses on its output queue
    and the commands it has sent match one to one, in order: an altitude
    status for each altitude command, a yaw status carrying the angle of
    each yaw command. *)
Theorem X16_worker_statuses_match_commands :
  forall atan2 fuel connection_given target exits queue o,
    command_worker atan2 fuel connection_given target exits queue = Some o ->
    commands o = match target with
                 | Some tgt => map (command_for tgt) (output_queue o)
                 | None => []
                 end
    /\ List.length (commands o) = List.length (output_queue o).
Proof.
  intros atan2 fuel connection_given target exits queue o Hrun.
  assert (H : commands o = match target with
                           | Some tgt => map (command_for tgt) (output_queue o)
                           | None => []
                           end
              /\ (target = None -> output_queue o = [])).
  { unfold command_worker, Command.create in Hrun.
    destruct connection_given, target as [tgt|]; cbn [negb] in Hrun;
      try (injection Hrun as <-; split; reflexivity).
    split; [|discriminate].
    exact (main_loop_commands atan2 fuel exits _ _ [] [] _ o eq_refl Hrun). }
  destruct H as [Hc Hn]. split; [exact Hc|].
  rewrite Hc. destruct target; [now rewrite length_map | now rewrite Hn].
Qed.

Lemma X16_worker_statuses_match_commands_witness :
  commands example_output
  = map (command_for example_target) (output_queue example_output)
  /\ List.length (commands example_output) = List.length (output_queue example_output).
Proof.
  apply (X16_worker_statuses_match_commands Command.atan2_quarter_turn 0%nat true
           (Some example_target) [false; false; false]
           ([Some example_first] ++ None :: [Some example_behind]) example_output).
  vm_compute. reflexivity.
Defined.

(** X17: with an empty input queue the command worker sends nothing and
    puts nothing however many rounds it makes, keeps polling, and returns
    once exit is requested with its attributes as created. *)
Theorem X17_worker_idle_on_empty_queue :
  forall atan2 fuel (tgt : Command.Position) (exits : list bool),
    In true exits ->
    exists o,
      command_worker atan2 fuel true (Some tgt) exits [] = Some o
      /\ commands o = [] /\ output_queue o = [] /\ input_queue o = []
      /\ final o = Some {| Command.target := tgt; Command.total_velocity_x := 0;
                           Command.total_velocity_y := 0; Command.total_velocity_z := 0;
                           Command.sample_count := 0 |}.
Proof.
  intros atan2 fuel tgt exits Hin. unfold command_worker. cbn [Command.create negb].
  destruct (main_loop_empty_queue atan2 fuel exits
              {| Command.target := tgt; Command.total_velocity_x := 0;
                 Command.total_velocity_y := 0; Command.total_velocity_z := 0;
                 Command.sample_count := 0 |} [] []
              [InfoLoggerInitialized; InfoCreated] Hin) as [l Hl].
  rewrite Hl. eexists. split; [reflexivity|]. now repeat split.
Qed.

Lemma X17_worker_idle_on_empty_queue_witness :
  exists o,
    command_worker Command.atan2_quarter_turn 0 true (Some example_target)
      [false; false; false; true] [] = Some o
    /\ commands o = [] /\ output_queue o = [] /\ input_queue o = []
    /\ final o = Some {| Command.target := example_target;
                         Command.total_velocity_x := 0;
                         Command.total_velocity_y := 0; Command.total_velocity_z := 0;
                         Command.sample_count := 0 |}.
Proof.
  apply (X17_worker_idle_on_empty_queue Command.atan2_quarter_turn 0%nat example_target
           [false; false; false; true]).
  cbn. tauto.
Defined.

End WorkerExtras.
